(** * Check-Host client: job/poll protocol and result normalisation

    A shallow embedding of [check_host.py]: the JSON values the backend
    returns, the Python operations the normalisers apply to them (with the
    exceptions they raise), the five normalisers of [NetworkTester], and the
    submit / poll client of [CheckHostAPI] over an explicit world (clock,
    network replies, log of effects). *)

From Stdlib Require Import ZArith QArith Qabs Bool List String Lia Lqa.
From Stdlib Require Import Floats DecimalString Ascii.
Import ListNotations.

Set Warnings "-inexact-float,-register-all".
Local Open Scope string_scope.
Local Open Scope Z_scope.

(** ** Python values and exceptions *)

(** What [response.json()] can hold, and what the normalisers build:
    a character of a Rocq string stands for one character of a Python
    [str]; a [dict] is the list of its items in insertion order. *)
Inductive pyval : Type :=
| PNone
| PBool (b : bool)
| PInt (z : Z)
| PFloat (f : float)
| PStr (s : string)
| PList (l : list pyval)
| PDict (d : list (string * pyval)).

Definition pydict : Type := list (string * pyval).

Inductive pyexc : Type :=
| TypeError | IndexError | KeyError | OverflowError | ZeroDivisionError.

(** The outcome of an expression that may raise. *)
Inductive res (A : Type) : Type :=
| Ok (a : A)
| Raise (e : pyexc).
Arguments Ok {A} a.
Arguments Raise {A} e.

Definition bind {A B} (m : res A) (k : A -> res B) : res B :=
  match m with
  | Ok a => k a
  | Raise e => Raise e
  end.

Declare Scope res_scope.
Delimit Scope res_scope with res.
Notation "x <- m ;; k" := (bind m (fun x => k))
  (at level 61, m at next level, right associativity) : res_scope.
Local Open Scope res_scope.

Fixpoint mapM {A B} (f : A -> res B) (l : list A) : res (list B) :=
  match l with
  | [] => Ok []
  | a :: l' => b <- f a ;; bs <- mapM f l' ;; Ok (b :: bs)
  end.

(** ** Dictionaries *)

Definition dict_keys (d : pydict) : list string := map fst d.

(** [k in d] *)
Definition dict_mem (k : string) (d : pydict) : bool :=
  existsb (fun kv => String.eqb (fst kv) k) d.

(** [d.get(k)]: the value, [None] when the key is missing. *)
Fixpoint dict_get (d : pydict) (k : string) : pyval :=
  match d with
  | [] => PNone
  | (k', v) :: d' => if String.eqb k' k then v else dict_get d' k
  end.

Fixpoint dict_find (d : pydict) (k : string) : option pyval :=
  match d with
  | [] => None
  | (k', v) :: d' => if String.eqb k' k then Some v else dict_find d' k
  end.

(** [d[k] = v]: an existing key keeps its place, a new one goes last. *)
Fixpoint dict_set (d : pydict) (k : string) (v : pyval) : pydict :=
  match d with
  | [] => [(k, v)]
  | (k', v') :: d' =>
      if String.eqb k' k then (k, v) :: d' else (k', v') :: dict_set d' k v
  end.

(** ** Operations on values *)

(** Truth value, as [if x] and [not x] take it. *)
Definition truthy (x : pyval) : bool :=
  match x with
  | PNone => false
  | PBool b => b
  | PInt z => negb (z =? 0)
  | PFloat f => negb (PrimFloat.eqb f 0%float)
  | PStr s => negb (String.eqb s "")
  | PList l => match l with [] => false | _ => true end
  | PDict d => match d with [] => false | _ => true end
  end.

Definition is_list (x : pyval) : bool :=
  match x with PList _ => true | _ => false end.

Definition is_none (x : pyval) : bool :=
  match x with PNone => true | _ => false end.

(** [len(x)] *)
Definition py_len (x : pyval) : res nat :=
  match x with
  | PList l => Ok (List.length l)
  | PStr s => Ok (String.length s)
  | PDict d => Ok (List.length d)
  | _ => Raise TypeError
  end.

(** [x[i]] for a literal index [i >= 0]. The keys of a decoded JSON
    object are strings, so an integer subscript of a dict finds none. *)
Definition py_getitem (x : pyval) (i : nat) : res pyval :=
  match x with
  | PList l =>
      match nth_error l i with Some v => Ok v | None => Raise IndexError end
  | PStr s =>
      match String.get i s with
      | Some c => Ok (PStr (String c EmptyString))
      | None => Raise IndexError
      end
  | PDict _ => Raise KeyError
  | _ => Raise TypeError
  end.

(** [x == s] for a string literal [s] *)
Definition py_eq_str (x : pyval) (s : string) : bool :=
  match x with PStr t => String.eqb t s | _ => false end.

(** [x == n] for an integer literal [n] *)
Definition py_eq_int (x : pyval) (n : Z) : bool :=
  match x with
  | PInt z => z =? n
  | PBool b => (if b then 1 else 0) =? n
  | PFloat f =>
      match Prim2SF f with
      | S754_zero _ => n =? 0
      | S754_finite s m e =>
          let v := if s then Z.neg m else Z.pos m in
          if 0 <=? e then v * 2 ^ e =? n else v =? n * 2 ^ (- e)
      | _ => false
      end
  | _ => false
  end.

(** *** Numbers *)

(** [float(z)]: the nearest binary64 (ties to even); too large raises. *)
Definition float_of_Z (z : Z) : res float :=
  let f := SF2Prim (binary_normalize prec emax z 0 false) in
  if is_infinity f then Raise OverflowError else Ok f.

(** [a / b] on integers: the correctly rounded quotient. The quotient is
    taken with at least 56 bits and a sticky last bit, then rounded once. *)
Definition int_truediv (a b : Z) : res float :=
  if b =? 0 then Raise ZeroDivisionError else
  let s := Z.sgn a * Z.sgn b in
  let a' := Z.abs a in
  let b' := Z.abs b in
  let k := Z.max 0 (Z.log2 b' - Z.log2 a' + 56) in
  let q := (a' * 2 ^ k) / b' in
  let r := (a' * 2 ^ k) mod b' in
  let m := 2 * q + (if r =? 0 then 0 else 1) in
  let f := SF2Prim (binary_normalize prec emax (s * m) (- (k + 1)) (b <? 0)) in
  if is_infinity f then Raise OverflowError else Ok f.

(** [z < f] and [f < z], compared exactly as Python does. *)
Definition Z_lt_float (z : Z) (f : float) : bool :=
  match Prim2SF f with
  | S754_nan => false
  | S754_infinity s => negb s
  | S754_zero _ => z <? 0
  | S754_finite s m e =>
      let v := if s then Z.neg m else Z.pos m in
      if 0 <=? e then z <? v * 2 ^ e else z * 2 ^ (- e) <? v
  end.

Definition float_lt_Z (f : float) (z : Z) : bool :=
  match Prim2SF f with
  | S754_nan => false
  | S754_infinity s => s
  | S754_zero _ => 0 <? z
  | S754_finite s m e =>
      let v := if s then Z.neg m else Z.pos m in
      if 0 <=? e then v * 2 ^ e <? z else v <? z * 2 ^ (- e)
  end.

(** A [bool] is an [int] in arithmetic. *)
Definition as_number (x : pyval) : pyval :=
  match x with
  | PBool b => PInt (if b then 1 else 0)
  | _ => x
  end.

Definition is_number (x : pyval) : bool :=
  match x with PInt _ | PFloat _ | PBool _ => true | _ => false end.

Fixpoint string_repeat (s : string) (n : nat) : string :=
  match n with
  | O => ""
  | S n' => s ++ string_repeat s n'
  end.

(** [x * n] for an integer literal [n > 0]: numbers multiply, strings and
    lists repeat, anything else raises. *)
Definition py_mul_int (x : pyval) (n : Z) : res pyval :=
  match x with
  | PInt z => Ok (PInt (z * n))
  | PBool b => Ok (PInt ((if b then 1 else 0) * n))
  | PFloat f => g <- float_of_Z n ;; Ok (PFloat (f * g)%float)
  | PStr s => Ok (PStr (string_repeat s (Z.to_nat n)))
  | PList l => Ok (PList (List.concat (List.repeat l (Z.to_nat n))))
  | PNone | PDict _ => Raise TypeError
  end.

(** [x + y] on numbers; what [sum] meets otherwise raises. *)
Definition py_add (x y : pyval) : res pyval :=
  match as_number x, as_number y with
  | PInt a, PInt b => Ok (PInt (a + b))
  | PInt a, PFloat g => f <- float_of_Z a ;; Ok (PFloat (f + g)%float)
  | PFloat f, PInt b => g <- float_of_Z b ;; Ok (PFloat (f + g)%float)
  | PFloat f, PFloat g => Ok (PFloat (f + g)%float)
  | _, _ => Raise TypeError
  end.

(** [x / n] where [n] is a length. *)
Definition py_truediv (x : pyval) (n : Z) : res pyval :=
  match as_number x with
  | PInt a => f <- int_truediv a n ;; Ok (PFloat f)
  | PFloat f =>
      g <- float_of_Z n ;;
      if PrimFloat.eqb g 0%float then Raise ZeroDivisionError
      else Ok (PFloat (f / g)%float)
  | _ => Raise TypeError
  end.

(** [x < y] on numbers. [min] and [max] below are reached only with lists
    that [sum] has accepted, and [sum] accepts numbers only. *)
Definition py_lt (x y : pyval) : res bool :=
  match as_number x, as_number y with
  | PInt a, PInt b => Ok (a <? b)
  | PInt a, PFloat g => Ok (Z_lt_float a g)
  | PFloat f, PInt b => Ok (float_lt_Z f b)
  | PFloat f, PFloat g => Ok (PrimFloat.ltb f g)
  | _, _ => Raise TypeError
  end.

(** [sum(l)]: from the integer 0, left to right. (CPython from 3.12 on
    compensates the rounding error of float sums; the two agree whenever
    the partial sums are exact.) *)
Definition py_sum (l : list pyval) : res pyval :=
  fold_left (fun acc x => a <- acc ;; py_add a x) l (Ok (PInt 0)).

(** [min(l)] and [max(l)] of a non-empty list: the first smallest, the
    first largest. *)
Definition py_min (l : list pyval) : res pyval :=
  match l with
  | [] => Raise TypeError
  | x :: l' =>
      fold_left (fun acc y =>
                   cur <- acc ;; b <- py_lt y cur ;; Ok (if b then y else cur))
                l' (Ok x)
  end.

Definition py_max (l : list pyval) : res pyval :=
  match l with
  | [] => Raise TypeError
  | x :: l' =>
      fold_left (fun acc y =>
                   cur <- acc ;; b <- py_lt cur y ;; Ok (if b then y else cur))
                l' (Ok x)
  end.

(** ** Global configuration and the node table *)

Definition DEFAULT_TIMEOUT : Q := 30%Q.
Definition MAX_RETRIES : nat := 3.
Definition RESULT_WAIT_TIME : Q := 10%Q.
Definition MAX_WAIT_TIME : Q := 30%Q.

Record node_info : Type := mk_node {
  country : string;
  city : string;
  continent : string
}.

Definition NODE_DETAILS : list (string * node_info) := [
    ("bg1.node.check-host.net", mk_node "Bulgaria" "Sofia" "EU");
    ("br1.node.check-host.net", mk_node "Brazil" "Sao Paulo" "SA");
    ("ch1.node.check-host.net", mk_node "Switzerland" "Zurich" "EU");
    ("cz1.node.check-host.net", mk_node "Czechia" "C.Budejovice" "EU");
    ("de1.node.check-host.net", mk_node "Germany" "Nuremberg" "EU");
    ("de4.node.check-host.net", mk_node "Germany" "Frankfurt" "EU");
    ("es1.node.check-host.net", mk_node "Spain" "Barcelona" "EU");
    ("fi1.node.check-host.net", mk_node "Finland" "Helsinki" "EU");
    ("fr1.node.check-host.net", mk_node "France" "Roubaix" "EU");
    ("fr2.node.check-host.net", mk_node "France" "Paris" "EU");
    ("hk1.node.check-host.net", mk_node "Hong Kong" "Hong Kong" "AS");
    ("hu1.node.check-host.net", mk_node "Hungary" "Nyiregyhaza" "EU");
    ("il1.node.check-host.net", mk_node "Israel" "Tel Aviv" "AS");
    ("il2.node.check-host.net", mk_node "Israel" "Netanya" "AS");
    ("in1.node.check-host.net", mk_node "India" "Mumbai" "AS");
    ("in2.node.check-host.net", mk_node "India" "Chennai" "AS");
    ("ir1.node.check-host.net", mk_node "Iran" "Tehran" "AS");
    ("ir3.node.check-host.net", mk_node "Iran" "Mashhad" "AS");
    ("ir5.node.check-host.net", mk_node "Iran" "Esfahan" "AS");
    ("ir6.node.check-host.net", mk_node "Iran" "Karaj" "AS");
    ("it2.node.check-host.net", mk_node "Italy" "Milan" "EU");
    ("jp1.node.check-host.net", mk_node "Japan" "Tokyo" "AS");
    ("kz1.node.check-host.net", mk_node "Kazakhstan" "Karaganda" "AS");
    ("lt1.node.check-host.net", mk_node "Lithuania" "Vilnius" "EU");
    ("md1.node.check-host.net", mk_node "Moldova" "Chisinau" "EU");
    ("nl1.node.check-host.net", mk_node "Netherlands" "Amsterdam" "EU");
    ("nl2.node.check-host.net", mk_node "Netherlands" "Meppel" "EU");
    ("pl1.node.check-host.net", mk_node "Poland" "Poznan" "EU");
    ("pl2.node.check-host.net", mk_node "Poland" "Warsaw" "EU");
    ("pt1.node.check-host.net", mk_node "Portugal" "Viana" "EU");
    ("rs1.node.check-host.net", mk_node "Serbia" "Belgrade" "EU");
    ("ru1.node.check-host.net", mk_node "Russia" "Moscow" "EU-EAST");
    ("ru2.node.check-host.net", mk_node "Russia" "Moscow" "EU-EAST");
    ("ru3.node.check-host.net", mk_node "Russia" "Saint Petersburg" "EU-EAST");
    ("ru4.node.check-host.net", mk_node "Russia" "Ekaterinburg" "EU-EAST");
    ("se1.node.check-host.net", mk_node "Sweden" "Tallberg" "EU");
    ("tr1.node.check-host.net", mk_node "Turkey" "Istanbul" "AS");
    ("tr2.node.check-host.net", mk_node "Turkey" "Gebze" "AS");
    ("ua1.node.check-host.net", mk_node "Ukraine" "Khmelnytskyi" "EU-EAST");
    ("ua2.node.check-host.net", mk_node "Ukraine" "Kyiv" "EU-EAST");
    ("ua3.node.check-host.net", mk_node "Ukraine" "SpaceX Starlink" "EU-EAST");
    ("uk1.node.check-host.net", mk_node "UK" "Coventry" "EU");
    ("us1.node.check-host.net", mk_node "USA" "Los Angeles" "NA");
    ("us2.node.check-host.net", mk_node "USA" "Dallas" "NA");
    ("us3.node.check-host.net", mk_node "USA" "Atlanta" "NA");
    ("vn1.node.check-host.net", mk_node "Vietnam" "Ho Chi Minh City" "AS")
].

(** [NODE_DETAILS[node]], defined when [node in NODE_DETAILS]. *)
Fixpoint node_lookup (t : list (string * node_info)) (node : string)
  : option node_info :=
  match t with
  | [] => None
  | (k, d) :: t' => if String.eqb k node then Some d else node_lookup t' node
  end.

Definition node_details (node : string) : option node_info :=
  node_lookup NODE_DETAILS node.

(** [f"{country} ({city})"] *)
Definition region_label (d : node_info) : string :=
  country d ++ " (" ++ city d ++ ")".

(** ** The result normaliser ([NetworkTester])

    Each of the five methods calls the API and, on the dict it gets back,
    runs the same loop with its own reading of a node's raw value. The
    functions below are the method bodies from the line after the API
    call; the call itself is composed in section [Client]. *)

(** [[r[1] * 1000 for r in ping_result if r[0] == "OK"]] *)
Fixpoint ping_rtts (ping_result : list pyval) : res (list pyval) :=
  match ping_result with
  | [] => Ok []
  | r :: rest =>
      status <- py_getitem r 0 ;;
      if py_eq_str status "OK" then
        t <- py_getitem r 1 ;;
        ms <- py_mul_int t 1000 ;;
        rtts <- ping_rtts rest ;;
        Ok (ms :: rtts)
      else ping_rtts rest
  end.

(** The record of a node whose [ping_result] passed the shape test. *)
Definition ping_metrics (ping_result : list pyval) : res pyval :=
  statuses <- mapM (fun r => py_getitem r 0) ping_result ;;
  let successful :=
    Z.of_nat (List.length (filter (fun s => py_eq_str s "OK") statuses)) in
  let total := Z.of_nat (List.length ping_result) in
  rtts <- ping_rtts ping_result ;;
  let have_rtts := match rtts with [] => false | _ => true end in
  avg <- (if have_rtts
          then s <- py_sum rtts ;; py_truediv s (Z.of_nat (List.length rtts))
          else Ok (PInt 0)) ;;
  mn <- (if have_rtts then py_min rtts else Ok (PInt 0)) ;;
  mx <- (if have_rtts then py_max rtts else Ok (PInt 0)) ;;
  loss <- (if 0 <? total
           then q <- py_truediv (PInt (total - successful)) total ;;
                py_mul_int q 100
           else Ok (PInt 100)) ;;
  first <- py_getitem (PList ping_result) 0 ;;
  n <- py_len first ;;
  ip <- (if (2 <? n)%nat then py_getitem first 2 else Ok PNone) ;;
  Ok (PDict [("success", PBool (0 <? successful));
             ("avg_latency", avg);
             ("min_latency", mn);
             ("max_latency", mx);
             ("packet_loss", loss);
             ("ip", ip)]).

(** The body of the loop of [ping] for one known node. The outer test
    [node_result and isinstance(node_result, list) and len(node_result) > 0]
    holds exactly of a non-empty list. *)
Definition ping_node (node_result : pyval) : res pyval :=
  match node_result with
  | PList (ping_result :: _) =>
      match ping_result with
      | PList attempts =>
          if (1 <? List.length attempts)%nat then ping_metrics attempts
          else Ok (PDict [("success", PBool false);
                          ("error", PStr "Invalid ping response")])
      | _ => Ok (PDict [("success", PBool false);
                        ("error", PStr "Invalid ping response")])
      end
  | _ => Ok (PDict [("success", PBool false);
                    ("error", PStr "No ping data")])
  end.

Definition http_metrics (http_result : list pyval) : res pyval :=
  f0 <- py_getitem (PList http_result) 0 ;;
  let success := py_eq_int f0 1 in
  f1 <- py_getitem (PList http_result) 1 ;;
  response_time <- py_mul_int f1 1000 ;;
  status_msg <- py_getitem (PList http_result) 2 ;;
  status_code <- py_getitem (PList http_result) 3 ;;
  ip <- (if (4 <? List.length http_result)%nat
         then py_getitem (PList http_result) 4 else Ok PNone) ;;
  Ok (PDict [("success", PBool success);
             ("status_code", status_code);
             ("status_msg", status_msg);
             ("response_time", response_time);
             ("ip", ip)]).

Definition http_node (node_result : pyval) : res pyval :=
  match node_result with
  | PList (http_result :: _) =>
      match http_result with
      | PList fields =>
          if (3 <? List.length fields)%nat then http_metrics fields
          else Ok (PDict [("success", PBool false);
                          ("error", PStr "Invalid HTTP response")])
      | _ => Ok (PDict [("success", PBool false);
                        ("error", PStr "Invalid HTTP response")])
      end
  | _ => Ok (PDict [("success", PBool false);
                    ("error", PStr "No HTTP data")])
  end.

Definition tcp_metrics (tcp_result : list pyval) : res pyval :=
  f0 <- py_getitem (PList tcp_result) 0 ;;
  let success := py_eq_int f0 1 in
  f1 <- py_getitem (PList tcp_result) 1 ;;
  connect_time <- py_mul_int f1 1000 ;;
  ip <- (if (2 <? List.length tcp_result)%nat
         then py_getitem (PList tcp_result) 2 else Ok PNone) ;;
  Ok (PDict [("success", PBool success);
             ("connect_time", connect_time);
             ("ip", ip)]).

Definition tcp_node (node_result : pyval) : res pyval :=
  match node_result with
  | PList (tcp_result :: _) =>
      match tcp_result with
      | PList fields =>
          if (1 <? List.length fields)%nat then tcp_metrics fields
          else Ok (PDict [("success", PBool false);
                          ("error", PStr "Invalid TCP response")])
      | _ => Ok (PDict [("success", PBool false);
                        ("error", PStr "Invalid TCP response")])
      end
  | _ => Ok (PDict [("success", PBool false);
                    ("error", PStr "No TCP data")])
  end.

Definition udp_metrics (udp_result : list pyval) : res pyval :=
  f0 <- py_getitem (PList udp_result) 0 ;;
  let success := py_eq_int f0 1 in
  f1 <- py_getitem (PList udp_result) 1 ;;
  response_time <- py_mul_int f1 1000 ;;
  ip <- (if (2 <? List.length udp_result)%nat
         then py_getitem (PList udp_result) 2 else Ok PNone) ;;
  Ok (PDict [("success", PBool success);
             ("response_time", response_time);
             ("ip", ip)]).

Definition udp_node (node_result : pyval) : res pyval :=
  match node_result with
  | PList (udp_result :: _) =>
      match udp_result with
      | PList fields =>
          if (1 <? List.length fields)%nat then udp_metrics fields
          else Ok (PDict [("success", PBool false);
                          ("error", PStr "Invalid UDP response")])
      | _ => Ok (PDict [("success", PBool false);
                        ("error", PStr "Invalid UDP response")])
      end
  | _ => Ok (PDict [("success", PBool false);
                    ("error", PStr "No UDP data")])
  end.

(** [[record[1] for record in dns_result if len(record) > 1]] *)
Fixpoint dns_addresses (dns_result : list pyval) : res (list pyval) :=
  match dns_result with
  | [] => Ok []
  | record :: rest =>
      n <- py_len record ;;
      if (1 <? n)%nat then
        a <- py_getitem record 1 ;;
        addresses <- dns_addresses rest ;;
        Ok (a :: addresses)
      else dns_addresses rest
  end.

Definition dns_metrics (dns_result : list pyval) : res pyval :=
  addresses <- dns_addresses dns_result ;;
  first <- py_getitem (PList dns_result) 0 ;;
  t <- py_getitem first 0 ;;
  resolution_time <- (if truthy t then py_mul_int t 1000 else Ok (PInt 0)) ;;
  Ok (PDict [("success", PBool true);
             ("resolution_time", resolution_time);
             ("addresses", PList addresses)]).

Definition dns_node (node_result : pyval) : res pyval :=
  match node_result with
  | PList (dns_result :: _) =>
      match dns_result with
      | PList records =>
          if (0 <? List.length records)%nat then dns_metrics records
          else Ok (PDict [("success", PBool false);
                          ("error", PStr "Invalid DNS response")])
      | _ => Ok (PDict [("success", PBool false);
                        ("error", PStr "Invalid DNS response")])
      end
  | _ => Ok (PDict [("success", PBool false);
                    ("error", PStr "No DNS data")])
  end.

(** The loop the five methods share:
    [for node, node_result in api_result.items(): if node in NODE_DETAILS: ...
     results[region] = ...], started from [results = {}]. An exception
    raised for one node leaves the method. *)
Fixpoint normalize_nodes (node_record : pyval -> res pyval)
    (items : pydict) (results : pydict) : res pydict :=
  match items with
  | [] => Ok results
  | (node, node_result) :: rest =>
      match node_details node with
      | Some d =>
          let region := region_label d in
          rec <- node_record node_result ;;
          normalize_nodes node_record rest (dict_set results region rec)
      | None => normalize_nodes node_record rest results
      end
  end.

(** [if 'error' in api_result: return {'error': api_result['error']}],
    then the loop. *)
Definition normalize (node_record : pyval -> res pyval)
    (api_result : pydict) : res pydict :=
  if dict_mem "error" api_result
  then Ok [("error", dict_get api_result "error")]
  else normalize_nodes node_record api_result [].

Definition ping (api_result : pydict) : res pydict :=
  normalize ping_node api_result.
Definition http_check (api_result : pydict) : res pydict :=
  normalize http_node api_result.
Definition tcp_check (api_result : pydict) : res pydict :=
  normalize tcp_node api_result.
Definition udp_check (api_result : pydict) : res pydict :=
  normalize udp_node api_result.
Definition dns_check (api_result : pydict) : res pydict :=
  normalize dns_node api_result.

(** The five sub-commands of [main] and what each dispatches to. *)
Inductive check_type : Type := Ping | Http | Tcp | Udp | Dns.

Definition node_record (ct : check_type) : pyval -> res pyval :=
  match ct with
  | Ping => ping_node
  | Http => http_node
  | Tcp => tcp_node
  | Udp => udp_node
  | Dns => dns_node
  end.

Definition normalizer (ct : check_type) : pydict -> res pydict :=
  match ct with
  | Ping => ping
  | Http => http_check
  | Tcp => tcp_check
  | Udp => udp_check
  | Dns => dns_check
  end.

(** The name each method writes into its error records. *)
Definition type_name (ct : check_type) : string :=
  match ct with
  | Ping => "ping"
  | Http => "HTTP"
  | Tcp => "TCP"
  | Udp => "UDP"
  | Dns => "DNS"
  end.

(** The least length of [node_result[0]] that passes a method's shape
    test ([len(...) > 1], [> 3], [> 1], [> 1], [> 0]). *)
Definition required_len (ct : check_type) : nat :=
  match ct with
  | Ping => 2
  | Http => 4
  | Tcp => 2
  | Udp => 2
  | Dns => 1
  end.

(** ** The job client ([CheckHostAPI])

    Time and the network are explicit. The world holds the clock (seconds),
    how many sleeps and requests were made, and the log of both.
    [time.sleep(d)] takes [d] seconds plus an overshoot, a request takes its
    latency; nothing else takes time. The k-th request is answered by
    [net k]: either a [RequestException] (with its message) raised by
    [session.get], [raise_for_status] or [json], or the decoded JSON
    object. *)

Inductive event : Type :=
| EvSleep (secs : Q)
| EvSubmit (endpoint host : string) (nodes : list string)
| EvResult (check_id : pyval).

Record reply : Type := mk_reply {
  latency : Q;
  outcome : string + pydict
}.

Record world : Type := mk_world {
  clock : Q;
  sleeps : nat;
  gets : nat;
  log : list event
}.

(** A computation on the world; [None] only when a loop runs out of fuel. *)
Definition M (A : Type) : Type := world -> option (A * world).

Definition ret {A} (a : A) : M A := fun w => Some (a, w).

Definition bindM {A B} (m : M A) (k : A -> M B) : M B :=
  fun w => match m w with
           | Some (a, w') => k a w'
           | None => None
           end.

Definition out_of_fuel {A} : M A := fun _ => None.

Declare Scope io_scope.
Delimit Scope io_scope with io.
Notation "x <- m ;; k" := (bindM m (fun x => k))
  (at level 61, m at next level, right associativity) : io_scope.

Definition BASE_URL : string := "https://check-host.net".

(** [all(v is not None for v in result_data.values())] *)
Definition all_responded (result_data : pydict) : bool :=
  forallb (fun kv => negb (is_none (snd kv))) result_data.

Definition timeout_incomplete : pyval :=
  PDict [("error", PStr "Timeout waiting for all nodes to respond")].

Definition timeout_transport (e : string) : pyval :=
  PDict [("error", PStr ("Timeout waiting for results: " ++ e))].

Definition no_check_id : pyval :=
  PDict [("error", PStr "No check ID received after retries")].

Definition request_failed (e : string) : pyval :=
  PDict [("error", PStr ("API request failed after retries: " ++ e))].

Section Client.

Variable sleep_extra : nat -> Q.
Variable net : nat -> reply.

Local Open Scope io_scope.

Definition time_time : M Q := fun w => Some (clock w, w).

Definition time_sleep (secs : Q) : M unit :=
  fun w => Some (tt, {| clock := (clock w + secs + sleep_extra (sleeps w))%Q;
                        sleeps := S (sleeps w);
                        gets := gets w;
                        log := log w ++ [EvSleep secs] |}).

(** [session.get(..., timeout=DEFAULT_TIMEOUT)], [raise_for_status()] and
    [json()] of one request, logged as [req]; a request that times out is
    one of the failures. *)
Definition session_get (req : event) : M (string + pydict) :=
  fun w => let r := net (gets w) in
           Some (outcome r, {| clock := (clock w + latency r)%Q;
                               sleeps := sleeps w;
                               gets := S (gets w);
                               log := log w ++ [req] |}).

(** [while elapsed < MAX_WAIT_TIME: ...] of [_get_check_results]. *)
Fixpoint poll_loop (fuel : nat) (check_id : pyval) (start_time elapsed : Q)
  : M pyval :=
  if Qlt_le_dec elapsed MAX_WAIT_TIME then
    match fuel with
    | O => out_of_fuel
    | S fuel' =>
        _ <- time_sleep RESULT_WAIT_TIME ;;
        r <- session_get (EvResult check_id) ;;
        match r with
        | inr result_data =>
            if all_responded result_data then ret (PDict result_data)
            else
              now <- time_time ;;
              poll_loop fuel' check_id start_time (now - start_time)%Q
        | inl e =>
            now <- time_time ;;
            let elapsed := (now - start_time)%Q in
            if Qlt_le_dec elapsed MAX_WAIT_TIME
            then poll_loop fuel' check_id start_time elapsed
            else ret (timeout_transport e)
        end
    end
  else ret timeout_incomplete.

Definition _get_check_results (fuel : nat) (check_id : pyval) : M pyval :=
  start_time <- time_time ;;
  poll_loop fuel check_id start_time 0%Q.

(** [for attempt in range(MAX_RETRIES): ...], the body the five
    [check_*] methods share; they differ in the endpoint only. A loop
    that ends without [return] makes the method return [None]. *)
Fixpoint submit_loop (fuel : nat) (endpoint host : string)
    (nodes : list string) (attempts : list nat) : M pyval :=
  match attempts with
  | [] => ret PNone
  | attempt :: rest =>
      r <- session_get (EvSubmit endpoint host nodes) ;;
      match r with
      | inr body =>
          let check_id := dict_get body "request_id" in
          if negb (truthy check_id) then
            if (attempt =? MAX_RETRIES - 1)%nat then ret no_check_id
            else submit_loop fuel endpoint host nodes rest
          else _get_check_results fuel check_id
      | inl e =>
          if (attempt =? MAX_RETRIES - 1)%nat then ret (request_failed e)
          else
            _ <- time_sleep 2%Q ;;
            submit_loop fuel endpoint host nodes rest
      end
  end.

Definition check (endpoint : string) (fuel : nat) (host : string)
    (nodes : option (list string)) : M pyval :=
  let nodes := match nodes with
               | None => map fst NODE_DETAILS
               | Some l => l
               end in
  submit_loop fuel endpoint host nodes (seq 0 MAX_RETRIES).

Definition check_ping := check "/check-ping".
Definition check_http := check "/check-http".
Definition check_tcp := check "/check-tcp".
Definition check_udp := check "/check-udp".
Definition check_dns := check "/check-dns".

Definition check_of (ct : check_type) :=
  match ct with
  | Ping => check_ping
  | Http => check_http
  | Tcp => check_tcp
  | Udp => check_udp
  | Dns => check_dns
  end.

(** A whole method of [NetworkTester]: the API call, then the
    normaliser on what it returned. [http_check] first completes a URL
    that names no scheme. *)
Definition run_check (ct : check_type) (fuel : nat) (target : string)
  : M (res pydict) :=
  let target :=
    match ct with
    | Http =>
        if String.prefix "http://" target || String.prefix "https://" target
        then target else "http://" ++ target
    | _ => target
    end in
  api_result <- check_of ct fuel target None ;;
  match api_result with
  | PDict d => ret (normalizer ct d)
  | _ => ret (Raise TypeError)
  end.

End Client.

Definition world0 : world :=
  {| clock := 0%Q; sleeps := 0; gets := 0; log := [] |}.

(** ** Statements about the normalised result *)

(** What the data model asks of a normalised result [res] of the raw
    payload [raw]: each known node of [raw] has its label as a key of [res]
    exactly once, and every entry of [res] is the record of a known node of
    [raw], under that node's label. *)
Definition node_coverage (ct : check_type) (raw res : pydict) : Prop :=
  (forall id d, In id (dict_keys raw) -> node_details id = Some d ->
     count_occ string_dec (dict_keys res) (region_label d) = 1%nat) /\
  (forall k rec, In (k, rec) res ->
     exists id v d, In (id, v) raw /\ node_details id = Some d /\
                    k = region_label d /\ node_record ct v = Ok rec).

(** The two error records of a method. *)
Definition no_data_record (ct : check_type) : pyval :=
  PDict [("success", PBool false);
         ("error", PStr ("No " ++ type_name ct ++ " data"))].

Definition invalid_record (ct : check_type) : pyval :=
  PDict [("success", PBool false);
         ("error", PStr ("Invalid " ++ type_name ct ++ " response"))].

(** The record's [ip] is the field at index [n] of the entry when the
    entry has one, [None] otherwise. *)
Definition ip_from_field (n : nat) (fields : list pyval) (rec : pyval) : Prop :=
  match rec with
  | PDict r =>
      dict_find r "ip" =
      Some (match nth_error fields n with Some v => v | None => PNone end)
  | _ => False
  end.

(** The exact value of a finite float. *)
Definition Q_of_float (f : float) : option Q :=
  match Prim2SF f with
  | S754_zero _ => Some 0%Q
  | S754_finite s m e =>
      let v := if s then Z.neg m else Z.pos m in
      Some (if 0 <=? e then inject_Z (v * 2 ^ e)
            else Qmake v (Z.to_pos (2 ^ (- e))))
  | _ => None
  end.

(** The inputs of the worked examples. *)
Definition us1 : string := "us1.node.check-host.net".
Definition de1 : string := "de1.node.check-host.net".

Definition ping_example_attempts : pyval :=
  PList [PList [PStr "OK"; PFloat 0.1; PStr "1.2.3.4"];
         PList [PStr "TIMEOUT"];
         PList [PStr "OK"; PFloat 0.3; PStr "1.2.3.4"]].

Definition http_example_fields : list pyval :=
  [PInt 1; PFloat 0.25; PStr "OK"; PInt 200; PStr "5.6.7.8"].

(** A payload with an (unknown) key [error] beside a known node. *)
Definition error_key_payload : pydict :=
  [(us1, PList []); ("error", PStr "x")].

(** Malformed attempts: not sequences, empty records, non-numeric time. *)
Definition attempts_not_sequences : pyval :=
  PList [PList [PInt 1; PInt 2]].
Definition attempts_empty_records : pyval :=
  PList [PList [PList []; PList []]].
Definition attempts_non_numeric : pyval :=
  PList [PList [PList [PStr "OK"; PNone]; PList [PStr "OK"; PNone]]].

(** ** Statements about the loop and the records *)

(** The raw value of the last known node of [items] that carries the
    label [lbl]. *)
Fixpoint last_labelled (items : pydict) (lbl : string) : option pyval :=
  match items with
  | [] => None
  | (node, v) :: rest =>
      match last_labelled rest lbl with
      | Some v' => Some v'
      | None =>
          match node_details node with
          | Some d => if String.eqb (region_label d) lbl then Some v else None
          | None => None
          end
      end
  end.

(** [r[0] == "OK"] of an attempt, false where the subscript raises. *)
Definition attempt_ok (r : pyval) : bool :=
  match py_getitem r 0 with
  | Ok s => py_eq_str s "OK"
  | Raise _ => false
  end.

(** The second field of a DNS record, [None] where there is none. *)
Definition second_field (record : pyval) : pyval :=
  match record with
  | PList (_ :: a :: _) => a
  | _ => PNone
  end.

Definition has_two_fields (record : pyval) : bool :=
  match record with
  | PList (_ :: _ :: _) => true
  | _ => false
  end.

(** ** Statements about the job client *)

(** What a run returned and what it did. *)
Definition outcome_and_log {A} (r : option (A * world))
  : option (A * list event) :=
  option_map (fun p => (fst p, log (snd p))) r.

(** The log of [n] rounds of the poll loop. *)
Definition polls (n : nat) (check_id : pyval) : list event :=
  List.concat (List.repeat [EvSleep RESULT_WAIT_TIME; EvResult check_id] n).

(** The time [i] rounds of the poll loop take when they start with [s]
    sleeps and [g] requests made. *)
Fixpoint elapsed_after (sleep_extra : nat -> Q) (net : nat -> reply)
    (s g i : nat) : Q :=
  match i with
  | O => 0%Q
  | S i' => (RESULT_WAIT_TIME + sleep_extra s + latency (net g)
             + elapsed_after sleep_extra net (S s) (S g) i')%Q
  end.

(** A submission that yields no job handle: the transport failed, or the
    response has no (truthy) [request_id]. *)
Definition lacks_handle (r : string + pydict) : bool :=
  match r with
  | inl _ => true
  | inr body => negb (truthy (dict_get body "request_id"))
  end.

(** What follows such a submission before the next attempt. *)
Definition backoff (r : string + pydict) : list event :=
  match r with
  | inl _ => [EvSleep 2%Q]
  | inr _ => []
  end.

(** The error the last such submission leaves. *)
Definition submission_error (r : string + pydict) : pyval :=
  match r with
  | inl e => request_failed e
  | inr _ => no_check_id
  end.

Definition endpoint_of (ct : check_type) : string :=
  match ct with
  | Ping => "/check-ping"
  | Http => "/check-http"
  | Tcp => "/check-tcp"
  | Udp => "/check-udp"
  | Dns => "/check-dns"
  end.

(** Environments for the worked runs: sleeps that never overshoot, a
    backend that answers every request the same. *)
Definition punctual : nat -> Q := fun _ => 0%Q.
Definition always (body : string + pydict) : nat -> reply :=
  fun _ => {| latency := 0%Q; outcome := body |}.

(** ** Further statements about the job client *)

(** A reply that ends the poll loop at once: a payload with no null. *)
Definition complete_reply (last : string + pydict) : bool :=
  match last with
  | inr p => all_responded p
  | inl _ => false
  end.

(** What the poll loop returns, read off the reply to its last request. *)
Definition poll_outcome (last : string + pydict) (r : pyval) : Prop :=
  match last with
  | inr p => if all_responded p then r = PDict p else r = timeout_incomplete
  | inl e => r = timeout_transport e
  end.

(** The log of submissions that yielded no handle, each with what
    follows it. *)
Definition submission_log (endpoint host : string) (nodes : list string)
    (rs : list (string + pydict)) : list event :=
  List.concat (map (fun r => EvSubmit endpoint host nodes :: backoff r) rs).

(** The URL [http_check] submits for [url]. *)
Definition with_scheme (url : string) : string :=
  if String.prefix "http://" url || String.prefix "https://" url
  then url else "http://" ++ url.

(** ** The display functions

    [display_*_results] print a title, a header, a rule and one row per
    entry of the result. What is modelled is what they pass to [print], in
    order, and the exception that ends them, if any. *)

(** The exceptions a display function can meet: those of the operations
    above, and two more. *)
Inductive exc : Type :=
| Builtin (e : pyexc)
| AttributeError
| ValueError.

Inductive try (A : Type) : Type :=
| Done (a : A)
| Raised (e : exc).
Arguments Done {A} a.
Arguments Raised {A} e.

Definition bindT {A B} (m : try A) (k : A -> try B) : try B :=
  match m with
  | Done a => k a
  | Raised e => Raised e
  end.

Declare Scope try_scope.
Delimit Scope try_scope with try.
Notation "x <- m ;; k" := (bindT m (fun x => k))
  (at level 61, m at next level, right associativity) : try_scope.

Definition lift {A} (m : res A) : try A :=
  match m with
  | Ok a => Done a
  | Raise e => Raised (Builtin e)
  end.

Definition newline : string := String (ascii_of_nat 10) "".

(** colorama's constants. *)
Definition ESC : string := String (ascii_of_nat 27) "".
Definition Fore_RED : string := ESC ++ "[31m".
Definition Fore_GREEN : string := ESC ++ "[32m".
Definition Fore_CYAN : string := ESC ++ "[36m".
Definition Style_RESET_ALL : string := ESC ++ "[0m".

(** [f"{s:<n}"] of a string. *)
Definition ljust (s : string) (n : nat) : string :=
  s ++ string_repeat " " (n - String.length s).

Definition is_substring (s1 s2 : string) : bool :=
  match String.index 0 s1 s2 with
  | Some _ => true
  | None => false
  end.

(** ['error' in data] *)
Definition contains_error (data : pyval) : try bool :=
  match data with
  | PDict d => Done (dict_mem "error" d)
  | PStr s => Done (is_substring "error" s)
  | PList l => Done (existsb (fun x => py_eq_str x "error") l)
  | _ => Raised (Builtin TypeError)
  end.

(** [data['error']] *)
Definition subscript_error (data : pyval) : try pyval :=
  match data with
  | PDict d =>
      match dict_find d "error" with
      | Some v => Done v
      | None => Raised (Builtin KeyError)
      end
  | _ => Raised (Builtin TypeError)
  end.

(** [data.get(k, default)] *)
Definition py_get (data : pyval) (k : string) (default : pyval) : try pyval :=
  match data with
  | PDict d =>
      Done (match dict_find d k with Some v => v | None => default end)
  | _ => Raised AttributeError
  end.

Definition decimal (z : Z) : string := NilZero.string_of_int (Z.to_int z).

(** [f"{x:.1f}"] of a float: the nearest number of tenths to its exact
    value, ties to the even one. *)
Definition float_1f (f : float) : string :=
  match Prim2SF f with
  | S754_nan => "nan"
  | S754_infinity s => if s then "-inf" else "inf"
  | S754_zero s => if s then "-0.0" else "0.0"
  | S754_finite s m e =>
      let tenths :=
        if 0 <=? e then Z.pos m * 2 ^ e * 10
        else
          let num := Z.pos m * 10 in
          let den := 2 ^ (- e) in
          let q := num / den in
          let r := num mod den in
          if 2 * r <? den then q
          else if den <? 2 * r then q + 1
          else if Z.even q then q else q + 1 in
      (if s then "-" else "") ++ decimal (tenths / 10) ++ "."
        ++ decimal (tenths mod 10)
  end.

(** [f"{x:.1f}"] *)
Definition format_1f (x : pyval) : try string :=
  match as_number x with
  | PFloat f => Done (float_1f f)
  | PInt z => f <- lift (float_of_Z z) ;; Done (float_1f f)
  | PStr _ => Raised ValueError
  | _ => Raised (Builtin TypeError)
  end%try.

(** [", ".join(x)] *)
Fixpoint join_strings (l : list pyval) : try string :=
  match l with
  | [] => Done ""
  | x :: rest =>
      match x with
      | PStr s =>
          match rest with
          | [] => Done s
          | _ => (t <- join_strings rest ;; Done (s ++ ", " ++ t))%try
          end
      | _ => Raised (Builtin TypeError)
      end
  end.

Fixpoint chars_of (s : string) : list pyval :=
  match s with
  | EmptyString => []
  | String c s' => PStr (String c "") :: chars_of s'
  end.

Definition py_join (x : pyval) : try string :=
  match x with
  | PList l => join_strings l
  | PStr s => join_strings (chars_of s)
  | PDict d => join_strings (map (fun kv => PStr (fst kv)) d)
  | _ => Raised (Builtin TypeError)
  end.

Section Display.

(** Two built-ins stay abstract: [str(x)] of a value that is not a
    string, and the text of a number under a format that only aligns. *)
Variable builtin_str : pyval -> string.
Variable format_number : pyval -> string.

Local Open Scope try_scope.

(** [f"{x}"] *)
Definition py_str (x : pyval) : string :=
  match x with
  | PStr s => s
  | _ => builtin_str x
  end.

(** [f"{x:<n}"] *)
Definition format_left (x : pyval) (n : nat) : try string :=
  match x with
  | PStr s => Done (ljust s n)
  | PInt _ | PFloat _ | PBool _ => Done (ljust (format_number x) n)
  | PNone | PList _ | PDict _ => Raised (Builtin TypeError)
  end.

(** The row of the five tables, then its [print]. *)
Definition ping_row (location : string) (data : pyval) : try string :=
  has_error <- contains_error data ;;
  cells <-
    (if has_error : bool then
       latency <- subscript_error data ;;
       Done (Fore_RED ++ "ERROR" ++ Style_RESET_ALL, "N/A", latency,
             PStr "N/A")
     else
       success <- py_get data "success" PNone ;;
       let status := if truthy success
                     then Fore_GREEN ++ "UP" ++ Style_RESET_ALL
                     else Fore_RED ++ "DOWN" ++ Style_RESET_ALL in
       loss <- py_get data "packet_loss" (PInt 0) ;;
       loss_text <- format_1f loss ;;
       let packet_loss := loss_text ++ "%" in
       success <- py_get data "success" PNone ;;
       if truthy success then
         mn <- py_get data "min_latency" (PInt 0) ;;
         mn_text <- format_1f mn ;;
         avg <- py_get data "avg_latency" (PInt 0) ;;
         avg_text <- format_1f avg ;;
         mx <- py_get data "max_latency" (PInt 0) ;;
         mx_text <- format_1f mx ;;
         ip <- py_get data "ip" (PStr "N/A") ;;
         Done (status, packet_loss,
               PStr (mn_text ++ "/" ++ avg_text ++ "/" ++ mx_text ++ " ms"),
               ip)
       else Done (status, packet_loss, PStr "N/A", PStr "N/A")) ;;
  let '(status, packet_loss, latency, ip) := cells in
  c4 <- format_left latency 25 ;;
  c5 <- format_left ip 15 ;;
  Done (ljust location 30 ++ " " ++ ljust status 10 ++ " "
        ++ ljust packet_loss 15 ++ " " ++ c4 ++ " " ++ c5).

Definition http_row (location : string) (data : pyval) : try string :=
  has_error <- contains_error data ;;
  cells <-
    (if has_error : bool then
       time_ms <- subscript_error data ;;
       Done (Fore_RED ++ "ERROR" ++ Style_RESET_ALL, "N/A", time_ms,
             PStr "N/A")
     else
       success <- py_get data "success" PNone ;;
       if truthy success then
         status_code <- py_get data "status_code" (PStr "N/A") ;;
         status_msg <- py_get data "status_msg" (PStr "") ;;
         t <- py_get data "response_time" (PInt 0) ;;
         t_text <- format_1f t ;;
         ip <- py_get data "ip" (PStr "N/A") ;;
         Done (Fore_GREEN ++ "UP" ++ Style_RESET_ALL,
               py_str status_code ++ " " ++ py_str status_msg,
               PStr (t_text ++ " ms"), ip)
       else Done (Fore_RED ++ "DOWN" ++ Style_RESET_ALL, "N/A",
                  PStr "N/A", PStr "N/A")) ;;
  let '(status, code, time_ms, ip) := cells in
  c4 <- format_left time_ms 15 ;;
  c5 <- format_left ip 15 ;;
  Done (ljust location 30 ++ " " ++ ljust status 10 ++ " "
        ++ ljust code 15 ++ " " ++ c4 ++ " " ++ c5).

(** The rows of [display_tcp_results] and [display_udp_results] differ in
    the two status words and in the key of the time. *)
Definition port_row (up down time_key : string)
    (location : string) (data : pyval) : try string :=
  has_error <- contains_error data ;;
  cells <-
    (if has_error : bool then
       time_ms <- subscript_error data ;;
       Done (Fore_RED ++ "ERROR" ++ Style_RESET_ALL, time_ms, PStr "N/A")
     else
       success <- py_get data "success" PNone ;;
       if truthy success then
         t <- py_get data time_key (PInt 0) ;;
         t_text <- format_1f t ;;
         ip <- py_get data "ip" (PStr "N/A") ;;
         Done (Fore_GREEN ++ up ++ Style_RESET_ALL,
               PStr (t_text ++ " ms"), ip)
       else Done (Fore_RED ++ down ++ Style_RESET_ALL,
                  PStr "N/A", PStr "N/A")) ;;
  let '(status, time_ms, ip) := cells in
  c3 <- format_left time_ms 15 ;;
  c4 <- format_left ip 15 ;;
  Done (ljust location 30 ++ " " ++ ljust status 10 ++ " "
        ++ c3 ++ " " ++ c4).

Definition tcp_row := port_row "OPEN" "CLOSED" "connect_time".
Definition udp_row := port_row "UP" "DOWN" "response_time".

Definition dns_row (location : string) (data : pyval) : try string :=
  has_error <- contains_error data ;;
  cells <-
    (if has_error : bool then
       addresses <- subscript_error data ;;
       Done (Fore_RED ++ "ERROR" ++ Style_RESET_ALL, "N/A", addresses)
     else
       success <- py_get data "success" PNone ;;
       if truthy success then
         t <- py_get data "resolution_time" (PInt 0) ;;
         t_text <- format_1f t ;;
         a <- py_get data "addresses" (PList []) ;;
         joined <- py_join a ;;
         Done (Fore_GREEN ++ "OK" ++ Style_RESET_ALL, t_text ++ " ms",
               PStr (substring 0 30 joined))
       else Done (Fore_RED ++ "FAIL" ++ Style_RESET_ALL, "N/A",
                  PStr "N/A")) ;;
  let '(status, time_ms, addresses) := cells in
  c4 <- format_left addresses 30 ;;
  Done (ljust location 30 ++ " " ++ ljust status 10 ++ " "
        ++ ljust time_ms 20 ++ " " ++ c4).

(** [for location, data in results.items(): ... print(row)]: the rows
    printed, and the exception that ended the loop. *)
Fixpoint print_rows (row : string -> pyval -> try string)
    (results : pydict) : list string * option exc :=
  match results with
  | [] => ([], None)
  | (location, data) :: rest =>
      match row location data with
      | Done line =>
          let (lines, e) := print_rows row rest in (line :: lines, e)
      | Raised e => ([], Some e)
      end
  end.

Definition display (title : string) (columns : list (string * nat))
    (row : string -> pyval -> try string) (results : pydict)
  : list string * option exc :=
  let header :=
    String.concat " " (map (fun c => ljust (fst c) (snd c)) columns) in
  let title_line := newline ++ Fore_CYAN ++ title ++ Style_RESET_ALL in
  let (lines, e) := print_rows row results in
  (title_line :: header :: string_repeat "-" 80 :: lines, e).

Definition display_ping_results : pydict -> list string * option exc :=
  display "PING RESULTS:"
    [("Location", 30%nat); ("Status", 10%nat); ("Packet Loss", 15%nat);
     ("Latency (min/avg/max)", 25%nat); ("IP", 15%nat)] ping_row.

Definition display_http_results : pydict -> list string * option exc :=
  display "HTTP RESULTS:"
    [("Location", 30%nat); ("Status", 10%nat); ("Response Code", 15%nat);
     ("Response Time", 15%nat); ("IP", 15%nat)] http_row.

Definition display_tcp_results : pydict -> list string * option exc :=
  display "TCP RESULTS:"
    [("Location", 30%nat); ("Status", 10%nat); ("Connect Time", 15%nat);
     ("IP", 15%nat)] tcp_row.

Definition display_udp_results : pydict -> list string * option exc :=
  display "UDP RESULTS:"
    [("Location", 30%nat); ("Status", 10%nat); ("Response Time", 15%nat);
     ("IP", 15%nat)] udp_row.

Definition display_dns_results : pydict -> list string * option exc :=
  display "DNS RESULTS:"
    [("Location", 30%nat); ("Status", 10%nat); ("Resolution Time", 20%nat);
     ("Addresses", 30%nat)] dns_row.

Definition display_of (ct : check_type) : pydict -> list string * option exc :=
  match ct with
  | Ping => display_ping_results
  | Http => display_http_results
  | Tcp => display_tcp_results
  | Udp => display_udp_results
  | Dns => display_dns_results
  end.

End Display.

(** ** Saving results

    [save_results] opens the file for writing and writes the result as
    JSON or as text; any exception ends the writing and is reported
    instead of the success message. What is modelled is what was written
    into the (truncated) file, in order, and the exception, if any.
    [json.dump] and [str] of a value that is not a string stay
    abstract, and so does whether the file can be opened. *)

Inductive save_exc : Type :=
| OSError
| WriteError (e : exc).

Section Save.

Variable builtin_str : pyval -> string.
Variable json_dump : pydict -> string.

(** [for key, value in data.items(): f.write(f"  {key}: {value}\n")] *)
Definition write_items (data : pyval) : try (list string) :=
  match data with
  | PDict d =>
      Done (map (fun kv => "  " ++ fst kv ++ ": "
                           ++ py_str builtin_str (snd kv) ++ newline) d)
  | _ => Raised AttributeError
  end.

(** The text branch: for each entry the location line, the lines of its
    items, an empty line. *)
Fixpoint write_text (results : pydict) : list string * option exc :=
  match results with
  | [] => ([], None)
  | (region, data) :: rest =>
      let location := "Location: " ++ region ++ newline in
      match write_items data with
      | Done lines =>
          let (written, e) := write_text rest in
          ((location :: lines) ++ newline :: written, e)%list
      | Raised e => ([location], Some e)
      end
  end.

Definition save_results (can_open : bool) (results : pydict)
    (format : string) : list string * option save_exc :=
  if can_open then
    if String.eqb format "json" then ([json_dump results], None)
    else
      let (written, e) := write_text results in
      (written, option_map WriteError e)
  else ([], Some OSError).

End Save.

(** * Properties *)

(** ** Dictionaries *)

Lemma dict_set_keys_In (d : pydict) (k k' : string) (v : pyval) :
  In k' (dict_keys (dict_set d k v)) <-> k' = k \/ In k' (dict_keys d).
Proof.
  induction d as [|[k0 v0] d IH]; simpl.
  - intuition congruence.
  - destruct (String.eqb k0 k) eqn:E; simpl.
    + apply String.eqb_eq in E. subst k0. intuition congruence.
    + rewrite IH. intuition congruence.
Qed.

Lemma dict_set_In (d : pydict) (k k' : string) (v v' : pyval) :
  In (k', v') (dict_set d k v) -> (k', v') = (k, v) \/ In (k', v') d.
Proof.
  induction d as [|[k0 v0] d IH]; simpl.
  - intuition congruence.
  - destruct (String.eqb k0 k) eqn:E; simpl.
    + intuition congruence.
    + intros [H|H]; [now right; left | destruct (IH H); auto].
Qed.

Lemma dict_set_NoDup (d : pydict) (k : string) (v : pyval) :
  NoDup (dict_keys d) -> NoDup (dict_keys (dict_set d k v)).
Proof.
  induction d as [|[k0 v0] d IH]; simpl; intros H.
  - constructor; [intros [] | constructor].
  - inversion H as [|? ? Hnin Hnd]; subst.
    destruct (String.eqb k0 k) eqn:E; simpl.
    + apply String.eqb_eq in E. subst k0. now constructor.
    + apply String.eqb_neq in E. constructor; [|now apply IH].
      fold (dict_keys (dict_set d k v)). rewrite dict_set_keys_In.
      intros [->|Hin]; [now apply E | now apply Hnin].
Qed.

Lemma dict_mem_In (k : string) (d : pydict) :
  dict_mem k d = true <-> In k (dict_keys d).
Proof.
  unfold dict_mem, dict_keys. rewrite existsb_exists, in_map_iff.
  split; intros [[k0 v0] [H1 H2]]; exists (k0, v0); simpl in *.
  - apply String.eqb_eq in H2. tauto.
  - subst. split; [assumption | apply String.eqb_refl].
Qed.

(** ** The loop over the nodes *)

Section Loop.

Variable f : pyval -> res pyval.

Lemma normalize_nodes_spec (items : pydict) :
  forall acc res, normalize_nodes f items acc = Ok res ->
    (NoDup (dict_keys acc) -> NoDup (dict_keys res)) /\
    (forall k, In k (dict_keys acc) -> In k (dict_keys res)) /\
    (forall id v d, In (id, v) items -> node_details id = Some d ->
       In (region_label d) (dict_keys res)) /\
    (forall k rec, In (k, rec) res ->
       In (k, rec) acc \/
       exists id v d, In (id, v) items /\ node_details id = Some d /\
                      k = region_label d /\ f v = Ok rec).
Proof.
  induction items as [|[node node_result] rest IH]; simpl; intros acc res H.
  - inversion H; subst. repeat split; auto. intros ? ? ? [].
  - destruct (node_details node) as [d|] eqn:Hd.
    + destruct (f node_result) as [rec|e] eqn:Hf; simpl in H; [|discriminate].
      destruct (IH _ _ H) as (Hnd & Hacc & Hitems & Hres).
      repeat split.
      * intros Hn. now apply Hnd, dict_set_NoDup.
      * intros k Hk. apply Hacc, dict_set_keys_In. now right.
      * intros id v d' [Heq|Hin] Hd'.
        -- inversion Heq; subst. rewrite Hd in Hd'. inversion Hd'; subst.
           apply Hacc, dict_set_keys_In. now left.
        -- eapply Hitems; eauto.
      * intros k r Hk. destruct (Hres _ _ Hk) as [Hin|(id & v & d' & Hin & ?)].
        -- destruct (dict_set_In _ _ _ _ _ Hin) as [Heq|Hin'].
           ++ inversion Heq; subst. right.
              exists node, node_result, d. repeat split; auto; now left.
           ++ now left.
        -- right. exists id, v, d'. intuition.
    + destruct (IH _ _ H) as (Hnd & Hacc & Hitems & Hres).
      repeat split; auto.
      * intros id v d' [Heq|Hin] Hd'.
        -- inversion Heq; subst. congruence.
        -- eapply Hitems; eauto.
      * intros k r Hk. destruct (Hres _ _ Hk) as [Hin|(id & v & d' & Hin & ?)].
        -- now left.
        -- right. exists id, v, d'. intuition.
Qed.

End Loop.

Lemma normalizer_unfold (ct : check_type) :
  normalizer ct = normalize (node_record ct).
Proof. destruct ct; reflexivity. Qed.

Lemma normalize_coverage (ct : check_type) (raw res : pydict) :
  dict_mem "error" raw = false ->
  normalizer ct raw = Ok res ->
  node_coverage ct raw res.
Proof.
  intros He H. rewrite normalizer_unfold in H. unfold normalize in H.
  rewrite He in H.
  destruct (normalize_nodes_spec _ _ _ _ H) as (Hnd & _ & Hitems & Hres).
  split.
  - intros id d Hin Hd. apply in_map_iff in Hin.
    destruct Hin as [[id' v] [Heq Hin]]. simpl in Heq. subst id'.
    apply NoDup_count_occ'.
    + apply Hnd. constructor.
    + eapply Hitems; eauto.
  - intros k rec Hk. destruct (Hres _ _ Hk) as [[]|Hex]. exact Hex.
Qed.

Lemma normalize_nodes_total (f : pyval -> res pyval) (items : pydict) :
  (forall id v d, In (id, v) items -> node_details id = Some d ->
     exists rec, f v = Ok rec) ->
  forall acc, exists res, normalize_nodes f items acc = Ok res.
Proof.
  induction items as [|[node node_result] rest IH]; simpl; intros Hok acc.
  - now exists acc.
  - destruct (node_details node) as [d|] eqn:Hd.
    + destruct (Hok node node_result d) as [rec Hrec]; auto.
      rewrite Hrec. simpl. apply IH. intros; eapply Hok; eauto.
    + apply IH. intros; eapply Hok; eauto.
Qed.

Lemma error_not_a_node : node_details "error" = None.
Proof. reflexivity. Qed.

Lemma normalize_single (f : pyval -> res pyval) (id : string) (d : node_info)
    (v rec : pyval) :
  node_details id = Some d ->
  f v = Ok rec ->
  normalize f [(id, v)] = Ok [(region_label d, rec)].
Proof.
  intros Hd Hf. unfold normalize. simpl.
  destruct (String.eqb id "error") eqn:E.
  - apply String.eqb_eq in E. subst id. rewrite error_not_a_node in Hd.
    discriminate.
  - simpl. rewrite Hd, Hf. reflexivity.
Qed.

(** ** C1: coverage of the known nodes *)

(** C1, as stated, fails: a payload that has a key [error] comes back as
    [{'error': ...}]: the known node beside it has no entry, and the entry
    there is belongs to an identifier the table does not know. *)
Lemma error_key_hides_nodes :
  In us1 (dict_keys error_key_payload) /\
  node_details us1 = Some (mk_node "USA" "Los Angeles" "NA") /\
  node_details "error" = None /\
  ping error_key_payload = Ok [("error", PStr "x")] /\
  ~ node_coverage Ping error_key_payload [("error", PStr "x")].
Proof.
  repeat split; try reflexivity.
  - now left.
  - intros [H _].
    specialize (H us1 _ (or_introl eq_refl) eq_refl).
    vm_compute in H. discriminate.
Qed.

(** C1, amended: on a raw payload without a key [error], in which the
    entry of every known node is one the method's reading accepts, each of
    the five normalisers returns a result in which the label of every known
    identifier of the payload is a key exactly once, and every entry is the
    record of a known identifier of the payload, under its label; an
    identifier the table does not know contributes nothing. *)
Theorem known_nodes_covered (ct : check_type) (raw : pydict) :
  dict_mem "error" raw = false ->
  (forall id v d, In (id, v) raw -> node_details id = Some d ->
     exists rec, node_record ct v = Ok rec) ->
  exists res, normalizer ct raw = Ok res /\ node_coverage ct raw res.
Proof.
  intros He Hok.
  destruct (normalize_nodes_total _ _ Hok []) as [res Hres].
  assert (H : normalizer ct raw = Ok res).
  { rewrite normalizer_unfold. unfold normalize. now rewrite He. }
  exists res. split; [exact H | now apply normalize_coverage].
Qed.

Lemma known_nodes_covered_witness :
  exists res,
    normalizer Ping [(us1, PList [ping_example_attempts]);
                     ("zz9.example.org", PNone);
                     (de1, PList [])] = Ok res /\
    node_coverage Ping [(us1, PList [ping_example_attempts]);
                        ("zz9.example.org", PNone);
                        (de1, PList [])] res.
Proof.
  apply (known_nodes_covered Ping).
  - reflexivity.
  - intros id v d [H|[H|[H|[]]]] _; inversion H; subst;
      eexists; vm_compute; reflexivity.
Defined.

(** A payload with a key [error] is answered with that entry alone,
    whatever else it holds. *)
Lemma error_key_short_circuits (ct : check_type) (raw : pydict) :
  dict_mem "error" raw = true ->
  normalizer ct raw = Ok [("error", dict_get raw "error")].
Proof.
  intros He. rewrite normalizer_unfold. unfold normalize. now rewrite He.
Qed.

(** Two nodes of the table carry the label "Russia (Moscow)": in the
    result they share one entry, which holds the record of the later. *)
Lemma same_label_nodes_share_entry :
  ping [("ru1.node.check-host.net", PList [PList []]);
        ("ru2.node.check-host.net", PList [])] =
    Ok [("Russia (Moscow)", no_data_record Ping)].
Proof. reflexivity. Qed.

(** ** C2: malformed attempts *)

(** C2 fails on the code: [ping] subscripts each attempt ([r[0]], [r[1]])
    and multiplies its time without a test of its shape, so attempts that
    are not sequences, empty attempt records and a non-numeric time raise
    out of the method, and the records of the other nodes are lost with
    it. The other methods multiply and subscript unguarded too. *)
Theorem malformed_attempts_raise :
  ping [(us1, attempts_not_sequences)] = Raise TypeError /\
  ping [(us1, attempts_empty_records)] = Raise IndexError /\
  ping [(us1, attempts_non_numeric)] = Raise TypeError /\
  ping [(de1, PList [ping_example_attempts]);
        (us1, attempts_empty_records)] = Raise IndexError /\
  http_check [(us1, PList [PList [PInt 1; PNone; PStr "OK"; PInt 200]])]
    = Raise TypeError /\
  tcp_check [(us1, PList [PList [PInt 1; PNone]])] = Raise TypeError /\
  udp_check [(us1, PList [PList [PInt 1; PNone]])] = Raise TypeError /\
  dns_check [(us1, PList [PList [PList []]])] = Raise IndexError.
Proof. repeat split; vm_compute; reflexivity. Qed.

(** ** C6, C7: the worked examples *)

(** C6: for a known node whose raw entry starts with the attempts
    [[["OK",0.1,"1.2.3.4"],["TIMEOUT"],["OK",0.3,"1.2.3.4"]]], [ping] yields
    success, average 200.0 ms, minimum 100.0 ms, maximum 300.0 ms, the
    address of the first attempt, and a packet loss that is the float
    [1/3*100], within 1e-14 of 100/3. *)
Theorem ping_example (id : string) (d : node_info) (rest : list pyval) :
  node_details id = Some d ->
  ping [(id, PList (ping_example_attempts :: rest))] =
    Ok [(region_label d,
         PDict [("success", PBool true);
                ("avg_latency", PFloat 200);
                ("min_latency", PFloat 100);
                ("max_latency", PFloat 300);
                ("packet_loss", PFloat 33.333333333333329);
                ("ip", PStr "1.2.3.4")])] /\
  exists q, Q_of_float 33.333333333333329 = Some q /\
            (Qabs (q - (100 # 3)) < (1 # 100000000000000))%Q.
Proof.
  intros Hd. split.
  - apply normalize_single; [exact Hd | vm_compute; reflexivity].
  - eexists. split; [vm_compute; reflexivity | vm_compute; reflexivity].
Qed.

Lemma ping_example_witness :
  ping [(us1, PList [ping_example_attempts])] =
    Ok [("USA (Los Angeles)",
         PDict [("success", PBool true);
                ("avg_latency", PFloat 200);
                ("min_latency", PFloat 100);
                ("max_latency", PFloat 300);
                ("packet_loss", PFloat 33.333333333333329);
                ("ip", PStr "1.2.3.4")])] /\
  exists q, Q_of_float 33.333333333333329 = Some q /\
            (Qabs (q - (100 # 3)) < (1 # 100000000000000))%Q.
Proof.
  apply (ping_example us1 (mk_node "USA" "Los Angeles" "NA") []).
  reflexivity.
Defined.

(** C7: for a known node whose raw entry starts with
    [[1, 0.25, "OK", 200, "5.6.7.8"]], [http_check] yields success, a
    response time of 250.0 ms, status code 200 and the address. *)
Theorem http_example (id : string) (d : node_info) (rest : list pyval) :
  node_details id = Some d ->
  http_check [(id, PList (PList http_example_fields :: rest))] =
    Ok [(region_label d,
         PDict [("success", PBool true);
                ("status_code", PInt 200);
                ("status_msg", PStr "OK");
                ("response_time", PFloat 250);
                ("ip", PStr "5.6.7.8")])].
Proof.
  intros Hd. apply normalize_single; [exact Hd | vm_compute; reflexivity].
Qed.

Lemma http_example_witness :
  http_check [(us1, PList [PList http_example_fields])] =
    Ok [("USA (Los Angeles)",
         PDict [("success", PBool true);
                ("status_code", PInt 200);
                ("status_msg", PStr "OK");
                ("response_time", PFloat 250);
                ("ip", PStr "5.6.7.8")])].
Proof.
  apply (http_example us1 (mk_node "USA" "Los Angeles" "NA") []).
  reflexivity.
Defined.

(** ** C8: where the address of an HTTP record comes from *)

(** C8, as stated, fails: an entry of four fields has a fourth field (the
    status code), and its record's [ip] is [None]; with five fields the
    [ip] is the fifth, not the fourth. *)
Lemma http_ip_is_not_fourth_field :
  nth_error [PInt 1; PFloat 0.25; PStr "OK"; PInt 200] 3 = Some (PInt 200) /\
  http_node (PList [PList [PInt 1; PFloat 0.25; PStr "OK"; PInt 200]]) =
    Ok (PDict [("success", PBool true);
               ("status_code", PInt 200);
               ("status_msg", PStr "OK");
               ("response_time", PFloat 250);
               ("ip", PNone)]) /\
  ~ ip_from_field 3 [PInt 1; PFloat 0.25; PStr "OK"; PInt 200]
      (PDict [("success", PBool true);
              ("status_code", PInt 200);
              ("status_msg", PStr "OK");
              ("response_time", PFloat 250);
              ("ip", PNone)]) /\
  ~ ip_from_field 3 http_example_fields
      (PDict [("success", PBool true);
              ("status_code", PInt 200);
              ("status_msg", PStr "OK");
              ("response_time", PFloat 250);
              ("ip", PStr "5.6.7.8")]).
Proof.
  repeat split; try (vm_compute; reflexivity);
    intros H; vm_compute in H; discriminate.
Qed.

(** C8, amended: for an HTTP entry of at least four fields whose second
    field multiplies by 1000, [http_check]'s reading returns a record, and
    its [ip] is the entry's fifth field (index 4) when the entry has more
    than four fields, [None] otherwise. *)
Theorem http_ip_is_fifth_field (fields rest : list pyval) (t : pyval) :
  (3 < List.length fields)%nat ->
  py_mul_int (nth 1 fields PNone) 1000 = Ok t ->
  exists rec, http_node (PList (PList fields :: rest)) = Ok rec /\
              ip_from_field 4 fields rec.
Proof.
  intros Hlen Hmul.
  destruct fields as [|f0 [|f1 [|f2 [|f3 more]]]]; simpl in Hlen; try lia.
  simpl in Hmul. unfold http_node.
  replace (3 <? List.length (f0 :: f1 :: f2 :: f3 :: more))%nat with true
    by (symmetry; apply Nat.ltb_lt; simpl; lia).
  unfold http_metrics.
  cbn [py_getitem nth_error bind]. rewrite Hmul. cbn [bind].
  destruct more as [|f4 more']; eexists; (split; [reflexivity|]);
    reflexivity.
Qed.

Lemma http_ip_is_fifth_field_witness :
  exists rec, http_node (PList [PList http_example_fields]) = Ok rec /\
              ip_from_field 4 http_example_fields rec.
Proof.
  apply (http_ip_is_fifth_field http_example_fields [] (PFloat 250)).
  - simpl. lia.
  - vm_compute. reflexivity.
Defined.

(** ** C9: the two error records *)

(** The two levels of shape the methods test: a raw value that is not a
    non-empty list is "no data", a first element that is not a list is
    "invalid". *)
Lemma node_record_not_reported (ct : check_type) (v : pyval) :
  match v with PList (_ :: _) => False | _ => True end ->
  node_record ct v = Ok (no_data_record ct).
Proof.
  intros H. destruct ct; destruct v as [| | | | |[|x l]|]; simpl in H;
    try contradiction; reflexivity.
Qed.

Lemma node_record_not_a_list (ct : check_type) (x : pyval)
    (rest : list pyval) :
  is_list x = false ->
  node_record ct (PList (x :: rest)) = Ok (invalid_record ct).
Proof.
  intros H. destruct ct; destruct x; simpl in H; try discriminate;
    reflexivity.
Qed.

Lemma node_record_no_data (ct : check_type) (v : pyval) :
  v = PNone \/ v = PList [] ->
  node_record ct v = Ok (no_data_record ct).
Proof. intros [->| ->]; destruct ct; reflexivity. Qed.

Lemma node_record_invalid (ct : check_type) (fields rest : list pyval) :
  (List.length fields < required_len ct)%nat ->
  node_record ct (PList (PList fields :: rest)) = Ok (invalid_record ct).
Proof.
  intros H.
  destruct ct; simpl in *;
    match goal with
    | |- context [(?n <? ?m)%nat] =>
        replace (n <? m)%nat with false
          by (symmetry; apply Nat.ltb_ge; lia)
    end; reflexivity.
Qed.

(** C9: for every check type and every known node, a raw value that is
    [None] or an empty list normalises to exactly
    [{success: False, error: "No <Type> data"}], and a non-empty list whose
    first element is a list shorter than the method's shape test asks
    normalises to exactly [{success: False, error: "Invalid <Type> response"}];
    both as the node's record and as the entry under its label. *)
Theorem error_records (ct : check_type) (id : string) (d : node_info) :
  node_details id = Some d ->
  (forall v, v = PNone \/ v = PList [] ->
     node_record ct v = Ok (no_data_record ct) /\
     normalizer ct [(id, v)] = Ok [(region_label d, no_data_record ct)]) /\
  (forall fields rest, (List.length fields < required_len ct)%nat ->
     node_record ct (PList (PList fields :: rest)) = Ok (invalid_record ct) /\
     normalizer ct [(id, PList (PList fields :: rest))] =
       Ok [(region_label d, invalid_record ct)]).
Proof.
  intros Hd. split.
  - intros v Hv. pose proof (node_record_no_data ct v Hv) as H.
    split; [exact H|]. rewrite normalizer_unfold.
    now apply normalize_single.
  - intros fields rest Hlen.
    pose proof (node_record_invalid ct fields rest Hlen) as H.
    split; [exact H|]. rewrite normalizer_unfold.
    now apply normalize_single.
Qed.

Lemma error_records_witness :
  (forall v, v = PNone \/ v = PList [] ->
     node_record Http v = Ok (no_data_record Http) /\
     normalizer Http [(us1, v)] =
       Ok [("USA (Los Angeles)", no_data_record Http)]) /\
  (forall fields rest, (List.length fields < required_len Http)%nat ->
     node_record Http (PList (PList fields :: rest)) =
       Ok (invalid_record Http) /\
     normalizer Http [(us1, PList (PList fields :: rest))] =
       Ok [("USA (Los Angeles)", invalid_record Http)]).
Proof.
  apply (error_records Http us1 (mk_node "USA" "Los Angeles" "NA")).
  reflexivity.
Defined.

(** ** The poll loop *)

Lemma ceiling_positive : (0 < MAX_WAIT_TIME)%Q.
Proof. reflexivity. Qed.

Section Poll.

Variable sleep_extra : nat -> Q.
Variable net : nat -> reply.

(** One round whose response is complete ends the loop. *)
Lemma poll_first_complete (fuel : nat) (check_id : pyval) (w : world)
    (payload : pydict) :
  outcome (net (gets w)) = inr payload ->
  all_responded payload = true ->
  exists w',
    _get_check_results sleep_extra net (S fuel) check_id w
      = Some (PDict payload, w') /\
    log w' = (log w ++ [EvSleep RESULT_WAIT_TIME; EvResult check_id])%list /\
    sleeps w' = S (sleeps w) /\
    gets w' = S (gets w).
Proof.
  intros Hnet Hall.
  unfold _get_check_results, bindM, time_time.
  cbn [poll_loop].
  destruct (Qlt_le_dec 0 MAX_WAIT_TIME) as [_|Hle].
  - unfold bindM, time_sleep, session_get. cbn [gets sleeps log clock].
    rewrite Hnet, Hall. unfold ret.
    eexists. split; [reflexivity|]. cbn [gets sleeps log].
    rewrite <- app_assoc. repeat split; reflexivity.
  - exfalso. apply (Qlt_not_le _ _ ceiling_positive Hle).
Qed.

Lemma inject_nat_S (n : nat) :
  (inject_Z (Z.of_nat (S n)) == inject_Z (Z.of_nat n) + 1)%Q.
Proof.
  rewrite Nat2Z.inj_succ. unfold Z.succ. rewrite inject_Z_plus. reflexivity.
Qed.

Section Patient.

(** A sleep lasts at least as long as asked, a request takes time. *)
Hypothesis sleep_extra_nonneg : forall k, (0 <= sleep_extra k)%Q.
Hypothesis latency_nonneg : forall k, (0 <= latency (net k))%Q.

Lemma elapsed_after_lower (i : nat) :
  forall s g,
    (inject_Z (Z.of_nat i) * RESULT_WAIT_TIME
     <= elapsed_after sleep_extra net s g i)%Q.
Proof.
  unfold RESULT_WAIT_TIME.
  induction i as [|i IH]; intros s g.
  - simpl. unfold Qle. simpl. lia.
  - cbn [elapsed_after]. unfold RESULT_WAIT_TIME.
    rewrite inject_nat_S.
    specialize (IH (S s) (S g)).
    pose proof (sleep_extra_nonneg s). pose proof (latency_nonneg g).
    lra.
Qed.

(** While every response is incomplete the loop goes round until the
    elapsed time reaches the ceiling, and then reports the timeout. *)
Lemma poll_incomplete (payload : pydict) (check_id : pyval) (start : Q) :
  all_responded payload = false ->
  forall fuel elapsed w,
    (forall k, (gets w <= k)%nat -> outcome (net k) = inr payload) ->
    (elapsed == clock w - start)%Q ->
    (MAX_WAIT_TIME - elapsed
     <= inject_Z (Z.of_nat fuel) * RESULT_WAIT_TIME)%Q ->
    exists n w',
      poll_loop sleep_extra net fuel check_id start elapsed w
        = Some (timeout_incomplete, w') /\
      log w' = (log w ++ polls n check_id)%list /\
      (clock w' - start ==
       elapsed + elapsed_after sleep_extra net (sleeps w) (gets w) n)%Q /\
      (MAX_WAIT_TIME <=
       elapsed + elapsed_after sleep_extra net (sleeps w) (gets w) n)%Q /\
      (forall i, (i < n)%nat ->
         (elapsed + elapsed_after sleep_extra net (sleeps w) (gets w) i
          < MAX_WAIT_TIME)%Q).
Proof.
  intros Hinc.
  induction fuel as [|fuel IH]; intros elapsed w Hnet Hel Hfuel.
  - (* no fuel is asked for only past the ceiling *)
    cbn [poll_loop].
    destruct (Qlt_le_dec elapsed MAX_WAIT_TIME) as [Hlt|Hge].
    + exfalso. unfold MAX_WAIT_TIME, RESULT_WAIT_TIME in *.
      change (inject_Z (Z.of_nat 0)) with 0%Q in Hfuel. lra.
    + exists O, w. unfold ret, polls. simpl. rewrite app_nil_r.
      repeat split; try lra. intros i Hi. lia.
  - cbn [poll_loop].
    destruct (Qlt_le_dec elapsed MAX_WAIT_TIME) as [Hlt|Hge].
    + unfold bindM at 1. unfold time_sleep at 1.
      unfold bindM at 1. unfold session_get at 1.
      cbn [gets sleeps log clock].
      rewrite (Hnet (gets w)) by lia. rewrite Hinc.
      unfold bindM at 1. unfold time_time at 1. cbn [clock].
      set (w1 := {| clock := (clock w + RESULT_WAIT_TIME
                              + sleep_extra (sleeps w)
                              + latency (net (gets w)))%Q;
                    sleeps := S (sleeps w);
                    gets := S (gets w);
                    log := ((log w ++ [EvSleep RESULT_WAIT_TIME])
                            ++ [EvResult check_id])%list |}).
      pose proof (sleep_extra_nonneg (sleeps w)) as Hs.
      pose proof (latency_nonneg (gets w)) as Hl.
      destruct (IH (clock w1 - start)%Q w1) as (n & w' & Hrun & Hlog & Hclk & Hceil & Hbelow).
      * intros k Hk. apply Hnet. simpl in Hk. lia.
      * reflexivity.
      * rewrite inject_nat_S in Hfuel. simpl.
        unfold MAX_WAIT_TIME, RESULT_WAIT_TIME in *. lra.
      * exists (S n), w'. split; [exact Hrun|].
        cbn [elapsed_after]. simpl in Hclk, Hceil, Hbelow.
        repeat split.
        -- rewrite Hlog. simpl. unfold polls. simpl.
           rewrite <- !app_assoc. reflexivity.
        -- unfold RESULT_WAIT_TIME in *. lra.
        -- unfold RESULT_WAIT_TIME, MAX_WAIT_TIME in *. lra.
        -- intros [|i] Hi.
           ++ simpl. unfold MAX_WAIT_TIME in *. lra.
           ++ cbn [elapsed_after]. specialize (Hbelow i ltac:(lia)).
              unfold RESULT_WAIT_TIME, MAX_WAIT_TIME in *. lra.
    + exists O, w. unfold ret, polls. simpl. rewrite app_nil_r.
      repeat split; try lra. intros i Hi. lia.
Qed.

End Patient.

End Poll.

Lemma all_null_incomplete (payload : pydict) :
  payload <> [] ->
  (forall kv, In kv payload -> snd kv = PNone) ->
  all_responded payload = false.
Proof.
  intros Hne Hnull. destruct payload as [|kv rest]; [congruence|].
  unfold all_responded. simpl. rewrite (Hnull kv) by now left. reflexivity.
Qed.

(** ** C4: every entry stays null *)

(** C4: when sleeps last at least as long as asked and every poll returns
    the same non-empty payload whose entries are all null, the poll loop
    (given fuel for three rounds) makes between one and three rounds, each
    started before the 30-second ceiling, stops once the elapsed time has
    reached the ceiling, and returns the incomplete-results timeout
    ['Timeout waiting for all nodes to respond'], not the payload. *)
Theorem all_null_polls_until_ceiling
    (sleep_extra : nat -> Q) (net : nat -> reply)
    (payload : pydict) (check_id : pyval) (w : world) (fuel : nat) :
  (forall k, (0 <= sleep_extra k)%Q) ->
  (forall k, (0 <= latency (net k))%Q) ->
  payload <> [] ->
  (forall kv, In kv payload -> snd kv = PNone) ->
  (forall k, (gets w <= k)%nat -> outcome (net k) = inr payload) ->
  (3 <= fuel)%nat ->
  exists n w',
    _get_check_results sleep_extra net fuel check_id w
      = Some (timeout_incomplete, w') /\
    timeout_incomplete <> PDict payload /\
    log w' = (log w ++ polls n check_id)%list /\
    (1 <= n <= 3)%nat /\
    (clock w' - clock w ==
     elapsed_after sleep_extra net (sleeps w) (gets w) n)%Q /\
    (MAX_WAIT_TIME <= elapsed_after sleep_extra net (sleeps w) (gets w) n)%Q /\
    (forall i, (i < n)%nat ->
       (elapsed_after sleep_extra net (sleeps w) (gets w) i < MAX_WAIT_TIME)%Q).
Proof.
  intros Hs Hl Hne Hnull Hnet Hfuel.
  pose proof (all_null_incomplete payload Hne Hnull) as Hinc.
  destruct (poll_incomplete sleep_extra net Hs Hl payload check_id (clock w)
              Hinc fuel 0%Q w Hnet)
    as (n & w' & Hrun & Hlog & Hclk & Hceil & Hbelow).
  - lra.
  - assert (H3 : (3 <= inject_Z (Z.of_nat fuel))%Q).
    { change 3%Q with (inject_Z 3). rewrite <- Zle_Qle. lia. }
    unfold MAX_WAIT_TIME, RESULT_WAIT_TIME. lra.
  - exists n, w'. split; [exact Hrun|]. split.
    { intros Heq. inversion Heq as [Hp]. subst payload.
      specialize (Hnull _ (or_introl eq_refl)). discriminate. }
    split; [exact Hlog|]. split.
    { split.
      - destruct n as [|n]; [|lia]. simpl in Hceil.
        unfold MAX_WAIT_TIME in Hceil. lra.
      - destruct (le_lt_dec n 3) as [|Hgt]; [assumption|exfalso].
        specialize (Hbelow 3%nat Hgt).
        pose proof (elapsed_after_lower sleep_extra net Hs Hl 3
                      (sleeps w) (gets w)) as Hlow.
        change (inject_Z (Z.of_nat 3)) with 3%Q in Hlow.
        unfold MAX_WAIT_TIME, RESULT_WAIT_TIME in *. lra. }
    split; [lra|]. split; [lra|].
    intros i Hi. specialize (Hbelow i Hi). lra.
Qed.

Lemma all_null_polls_until_ceiling_witness :
  exists n w',
    _get_check_results punctual (always (inr [(us1, PNone)])) 3
      (PStr "2f3a") world0 = Some (timeout_incomplete, w') /\
    timeout_incomplete <> PDict [(us1, PNone)] /\
    log w' = (log world0 ++ polls n (PStr "2f3a"))%list /\
    (1 <= n <= 3)%nat /\
    (clock w' - clock world0 ==
     elapsed_after punctual (always (inr [(us1, PNone)]))
       (sleeps world0) (gets world0) n)%Q /\
    (MAX_WAIT_TIME <=
     elapsed_after punctual (always (inr [(us1, PNone)]))
       (sleeps world0) (gets world0) n)%Q /\
    (forall i, (i < n)%nat ->
       (elapsed_after punctual (always (inr [(us1, PNone)]))
          (sleeps world0) (gets world0) i < MAX_WAIT_TIME)%Q).
Proof.
  apply (all_null_polls_until_ceiling punctual (always (inr [(us1, PNone)]))
           [(us1, PNone)] (PStr "2f3a") world0 3).
  - intros k. unfold punctual. lra.
  - intros k. simpl. lra.
  - discriminate.
  - intros kv [H|[]]. subst kv. reflexivity.
  - intros k _. reflexivity.
  - lia.
Defined.

(** ** C5: every entry present on the first poll *)

(** C5: when the first poll response has no null entry, the poll loop
    returns that payload after one sleep of 10 seconds and one request;
    there is no second sleep and no second poll. *)
Theorem complete_first_poll_returns
    (sleep_extra : nat -> Q) (net : nat -> reply)
    (fuel : nat) (check_id : pyval) (w : world) (payload : pydict) :
  outcome (net (gets w)) = inr payload ->
  (forall kv, In kv payload -> snd kv <> PNone) ->
  exists w',
    _get_check_results sleep_extra net (S fuel) check_id w
      = Some (PDict payload, w') /\
    log w' = (log w ++ [EvSleep RESULT_WAIT_TIME; EvResult check_id])%list /\
    sleeps w' = S (sleeps w) /\
    gets w' = S (gets w).
Proof.
  intros Hnet Hall. apply poll_first_complete; [exact Hnet|].
  unfold all_responded. apply forallb_forall. intros kv Hin.
  specialize (Hall kv Hin). destruct (snd kv); simpl; congruence.
Qed.

Lemma complete_first_poll_returns_witness :
  exists w',
    _get_check_results punctual
      (always (inr [(us1, PList [ping_example_attempts])])) 1
      (PStr "2f3a") world0
      = Some (PDict [(us1, PList [ping_example_attempts])], w') /\
    log w' = (log world0 ++
              [EvSleep RESULT_WAIT_TIME; EvResult (PStr "2f3a")])%list /\
    sleeps w' = S (sleeps world0) /\
    gets w' = S (gets world0).
Proof.
  apply (complete_first_poll_returns punctual
           (always (inr [(us1, PList [ping_example_attempts])])) 0
           (PStr "2f3a") world0).
  - reflexivity.
  - intros kv [H|[]]. subst kv. simpl. discriminate.
Defined.

(** ** C10: the empty payload *)

(** C10: when the first poll returns an empty mapping, the completion test
    holds of it, the poll loop returns the empty payload after that one
    poll, and each normaliser maps it to the empty result. *)
Theorem empty_payload_returns_at_once
    (sleep_extra : nat -> Q) (net : nat -> reply)
    (fuel : nat) (check_id : pyval) (w : world) :
  outcome (net (gets w)) = inr [] ->
  all_responded [] = true /\
  (exists w',
     _get_check_results sleep_extra net (S fuel) check_id w
       = Some (PDict [], w') /\
     log w' = (log w ++ [EvSleep RESULT_WAIT_TIME; EvResult check_id])%list) /\
  (forall ct, normalizer ct [] = Ok []).
Proof.
  intros Hnet. split; [reflexivity|]. split.
  - destruct (poll_first_complete sleep_extra net fuel check_id w [] Hnet
                eq_refl) as (w' & Hrun & Hlog & _).
    now exists w'.
  - intros ct. destruct ct; reflexivity.
Qed.

Lemma empty_payload_returns_at_once_witness :
  all_responded [] = true /\
  (exists w',
     _get_check_results punctual (always (inr [])) 1 (PStr "2f3a") world0
       = Some (PDict [], w') /\
     log w' = (log world0 ++
               [EvSleep RESULT_WAIT_TIME; EvResult (PStr "2f3a")])%list) /\
  (forall ct, normalizer ct [] = Ok []).
Proof.
  apply (empty_payload_returns_at_once punctual (always (inr [])) 0
           (PStr "2f3a") world0).
  reflexivity.
Defined.

(** ** C3: submission *)

Lemma check_of_unfold (sleep_extra : nat -> Q) (net : nat -> reply)
    (ct : check_type) :
  check_of sleep_extra net ct = check sleep_extra net (endpoint_of ct).
Proof. destruct ct; reflexivity. Qed.

(** When none of three submissions yields a handle, there are exactly
    three of them, a 2-second sleep follows the first and the second only
    where the transport failed, and the error is that of the third. *)
Lemma submit_exhausted (sleep_extra : nat -> Q) (net : nat -> reply)
    (ct : check_type) (fuel : nat) (host : string) (nodes : list string)
    (w : world) :
  let r := fun i => outcome (net (gets w + i)%nat) in
  lacks_handle (r 0%nat) = true ->
  lacks_handle (r 1%nat) = true ->
  lacks_handle (r 2%nat) = true ->
  outcome_and_log (check_of sleep_extra net ct fuel host (Some nodes) w) =
    Some (submission_error (r 2%nat),
          (log w ++ [EvSubmit (endpoint_of ct) host nodes] ++ backoff (r 0%nat)
                 ++ [EvSubmit (endpoint_of ct) host nodes] ++ backoff (r 1%nat)
                 ++ [EvSubmit (endpoint_of ct) host nodes])%list).
Proof.
  destruct w as [c s g l]. cbv zeta. cbn [gets log].
  intros H0 H1 H2.
  rewrite check_of_unfold. unfold check.
  replace (g + 0)%nat with g in * by lia.
  replace (g + 1)%nat with (S g) in * by lia.
  replace (g + 2)%nat with (S (S g)) in * by lia.
  change (seq 0 MAX_RETRIES) with [0; 1; 2]%nat.
  destruct (outcome (net g)) as [e0|b0] eqn:E0;
    destruct (outcome (net (S g))) as [e1|b1] eqn:E1;
    destruct (outcome (net (S (S g)))) as [e2|b2] eqn:E2;
    cbn [lacks_handle] in H0, H1, H2;
    repeat (cbv beta iota zeta delta
              [submit_loop bindM session_get time_sleep ret gets sleeps log
               clock Nat.eqb MAX_RETRIES Nat.sub outcome_and_log option_map
               fst snd submission_error backoff];
            rewrite ?E0, ?E1, ?E2, ?H0, ?H1, ?H2);
    rewrite <- ?app_assoc; reflexivity.
Qed.

(** C3 fails on the code where a response lacks the handle: the next
    attempt follows at once. With a backend that answers every submission
    without a [request_id], each [check_*] makes its three requests with
    no sleep between them and returns the missing-handle error. *)
Theorem no_backoff_after_missing_handle
    (ct : check_type) (fuel : nat) (host : string) (nodes : list string) :
  outcome_and_log
    (check_of punctual (always (inr [])) ct fuel host (Some nodes) world0) =
    Some (no_check_id,
          [EvSubmit (endpoint_of ct) host nodes;
           EvSubmit (endpoint_of ct) host nodes;
           EvSubmit (endpoint_of ct) host nodes]).
Proof. destruct ct; reflexivity. Qed.

(** Where the transport fails every time, the backoff is there. *)
Lemma backoff_after_transport_failure
    (ct : check_type) (fuel : nat) (host : string) (nodes : list string)
    (e : string) :
  outcome_and_log
    (check_of punctual (always (inl e)) ct fuel host (Some nodes) world0) =
    Some (request_failed e,
          [EvSubmit (endpoint_of ct) host nodes; EvSleep 2%Q;
           EvSubmit (endpoint_of ct) host nodes; EvSleep 2%Q;
           EvSubmit (endpoint_of ct) host nodes]).
Proof. destruct ct; reflexivity. Qed.


(** * Further properties of the normaliser *)

Lemma bind_Ok_inv {A B} (m : res A) (k : A -> res B) (b : B) :
  bind m k = Ok b -> exists a, m = Ok a /\ k a = Ok b.
Proof. destruct m as [a|e]; simpl; intros H; [eauto | discriminate]. Qed.

Lemma dict_find_set (d : pydict) (k k' : string) (v : pyval) :
  dict_find (dict_set d k v) k' =
  if String.eqb k k' then Some v else dict_find d k'.
Proof.
  induction d as [|[k0 v0] d IH]; simpl.
  - reflexivity.
  - destruct (String.eqb k0 k) eqn:E; simpl.
    + apply String.eqb_eq in E. subst k0.
      destruct (String.eqb k k'); reflexivity.
    + destruct (String.eqb k0 k') eqn:E'.
      * apply String.eqb_eq in E'. subst k'.
        rewrite String.eqb_sym, E. reflexivity.
      * exact IH.
Qed.

Lemma normalize_nodes_last (f : pyval -> res pyval) (items : pydict) :
  forall acc res, normalize_nodes f items acc = Ok res ->
  forall lbl,
    match last_labelled items lbl with
    | Some v => exists r, f v = Ok r /\ dict_find res lbl = Some r
    | None => dict_find res lbl = dict_find acc lbl
    end.
Proof.
  induction items as [|[node v] rest IH]; simpl; intros acc res H lbl.
  - inversion H. reflexivity.
  - destruct (node_details node) as [d|] eqn:Hd.
    + apply bind_Ok_inv in H. destruct H as (r & Hr & H).
      specialize (IH _ _ H lbl).
      destruct (last_labelled rest lbl) as [v'|]; [exact IH|].
      rewrite dict_find_set in IH.
      destruct (String.eqb (region_label d) lbl); [eauto | exact IH].
    + specialize (IH _ _ H lbl).
      destruct (last_labelled rest lbl) as [v'|]; exact IH.
Qed.

(** The entry under a label is the record of the last node of the payload
    that carries the label: where two known nodes share a label, the
    record of the earlier one is overwritten. *)
Theorem last_node_of_a_label_wins (ct : check_type) (raw res : pydict)
    (lbl : string) :
  dict_mem "error" raw = false ->
  normalizer ct raw = Ok res ->
  match last_labelled raw lbl with
  | Some v => exists r, node_record ct v = Ok r /\ dict_find res lbl = Some r
  | None => dict_find res lbl = None
  end.
Proof.
  intros He H. rewrite normalizer_unfold in H. unfold normalize in H.
  rewrite He in H. exact (normalize_nodes_last _ _ _ _ H lbl).
Qed.

Lemma last_node_of_a_label_wins_witness :
  match last_labelled [("ru1.node.check-host.net", PList [PList []]);
                       ("ru2.node.check-host.net", PList [])]
          "Russia (Moscow)" with
  | Some v => exists r, node_record Ping v = Ok r /\
                        dict_find [("Russia (Moscow)", no_data_record Ping)]
                          "Russia (Moscow)" = Some r
  | None => dict_find [("Russia (Moscow)", no_data_record Ping)]
              "Russia (Moscow)" = None
  end.
Proof.
  apply (last_node_of_a_label_wins Ping
           [("ru1.node.check-host.net", PList [PList []]);
            ("ru2.node.check-host.net", PList [])]).
  - reflexivity.
  - reflexivity.
Defined.

Lemma normalize_nodes_raise (f : pyval -> res pyval) (before : pydict) :
  forall (id : string) (v : pyval) (d : node_info) (after : pydict)
         (e : pyexc) (acc : pydict),
    (forall id' v' d', In (id', v') before -> node_details id' = Some d' ->
       exists r, f v' = Ok r) ->
    node_details id = Some d ->
    f v = Raise e ->
    normalize_nodes f (before ++ (id, v) :: after)%list acc = Raise e.
Proof.
  induction before as [|[node nv] before IH]; simpl;
    intros id v d after e acc Hok Hd Hf.
  - rewrite Hd, Hf. reflexivity.
  - destruct (node_details node) as [d'|] eqn:Hd'.
    + destruct (Hok node nv d') as [r Hr]; auto.
      rewrite Hr. simpl. eapply IH; eauto.
    + eapply IH; eauto.
Qed.

(** One node whose raw value the method's reading raises on makes the
    whole method raise that exception: the records of the nodes before it
    are dropped and the nodes after it are never read. *)
Theorem raising_node_aborts_all (ct : check_type) (before after : pydict)
    (id : string) (v : pyval) (d : node_info) (e : pyexc) :
  dict_mem "error" (before ++ (id, v) :: after)%list = false ->
  (forall id' v' d', In (id', v') before -> node_details id' = Some d' ->
     exists r, node_record ct v' = Ok r) ->
  node_details id = Some d ->
  node_record ct v = Raise e ->
  normalizer ct (before ++ (id, v) :: after)%list = Raise e.
Proof.
  intros He Hok Hd Hf. rewrite normalizer_unfold. unfold normalize.
  rewrite He. eapply normalize_nodes_raise; eauto.
Qed.

Lemma raising_node_aborts_all_witness :
  normalizer Dns ([(de1, PList [])] ++
                  (us1, PList [PList [PList []]]) ::
                  [("fr1.node.check-host.net", PNone)])%list
    = Raise IndexError.
Proof.
  apply (raising_node_aborts_all Dns [(de1, PList [])]
           [("fr1.node.check-host.net", PNone)] us1
           (PList [PList [PList []]]) (mk_node "USA" "Los Angeles" "NA")).
  - reflexivity.
  - intros id' v' d' [H|[]] _. inversion H; subst. eexists. reflexivity.
  - reflexivity.
  - reflexivity.
Defined.

Ltac invert_binds H :=
  repeat (apply bind_Ok_inv in H;
          let a := fresh "a" in
          let Ha := fresh "Ha" in
          destruct H as (a & Ha & H)).

Lemma record_shapes (ct : check_type) (fields : list pyval) (rec : pyval) :
  match ct with
  | Ping => ping_metrics fields
  | Http => http_metrics fields
  | Tcp => tcp_metrics fields
  | Udp => udp_metrics fields
  | Dns => dns_metrics fields
  end = Ok rec ->
  exists r b, rec = PDict r /\ dict_find r "success" = Some (PBool b) /\
              dict_mem "error" r = false.
Proof.
  destruct ct; intros H;
    [unfold ping_metrics in H | unfold http_metrics in H
    | unfold tcp_metrics in H | unfold udp_metrics in H
    | unfold dns_metrics in H];
    invert_binds H; inversion H; subst;
    eexists; eexists; repeat split; reflexivity.
Qed.

(** Every record a method builds for a node is a dict with a boolean
    [success]; it has a key [error] exactly when it is one of the method's
    two error records, and then [success] is false. *)
Theorem record_success_and_error (ct : check_type) (v rec : pyval) :
  node_record ct v = Ok rec ->
  exists r b,
    rec = PDict r /\
    dict_find r "success" = Some (PBool b) /\
    (dict_mem "error" r = true <->
     rec = no_data_record ct \/ rec = invalid_record ct) /\
    (dict_mem "error" r = true -> b = false).
Proof.
  intros H.
  assert (Hcases :
    rec = no_data_record ct \/ rec = invalid_record ct \/
    exists r b, rec = PDict r /\ dict_find r "success" = Some (PBool b) /\
                dict_mem "error" r = false).
  { destruct v as [| | | | |[|x rest]|];
      try (left; destruct ct; simpl in H; inversion H; reflexivity).
    destruct x as [| | | | |fields|];
      try (right; left; destruct ct; simpl in H; inversion H; reflexivity).
    destruct ct; simpl in H;
      match type of H with
      | (if ?c then _ else _) = _ => destruct c eqn:Hc
      end;
      try (right; left; inversion H; reflexivity);
      right; right.
    - exact (record_shapes Ping _ _ H).
    - exact (record_shapes Http _ _ H).
    - exact (record_shapes Tcp _ _ H).
    - exact (record_shapes Udp _ _ H).
    - exact (record_shapes Dns _ _ H). }
  destruct Hcases as [->|[->|(r & b & -> & Hs & He)]].
  - exists [("success", PBool false);
            ("error", PStr ("No " ++ type_name ct ++ " data"))], false.
    repeat split; auto.
  - exists [("success", PBool false);
            ("error", PStr ("Invalid " ++ type_name ct ++ " response"))], false.
    repeat split; auto.
  - exists r, b. repeat split; auto.
    + intros Ht. congruence.
    + intros [Heq|Heq]; inversion Heq; subst; destruct ct; discriminate.
    + intros Ht. congruence.
Qed.

Lemma record_success_and_error_witness :
  exists r b,
    PDict [("success", PBool false); ("error", PStr "Invalid TCP response")]
      = PDict r /\
    dict_find r "success" = Some (PBool b) /\
    (dict_mem "error" r = true <->
     PDict [("success", PBool false); ("error", PStr "Invalid TCP response")]
       = no_data_record Tcp \/
     PDict [("success", PBool false); ("error", PStr "Invalid TCP response")]
       = invalid_record Tcp) /\
    (dict_mem "error" r = true -> b = false).
Proof.
  apply (record_success_and_error Tcp (PList [PList [PInt 1]])).
  reflexivity.
Defined.

(** ** Ping: success and the latencies of a node no attempt reached *)

Lemma statuses_count (attempts : list pyval) :
  forall statuses,
    mapM (fun r => py_getitem r 0) attempts = Ok statuses ->
    (0 <? Z.of_nat (List.length
                      (filter (fun s => py_eq_str s "OK") statuses)))
    = existsb attempt_ok attempts.
Proof.
  induction attempts as [|r rest IH]; simpl; intros statuses H.
  - inversion H. reflexivity.
  - invert_binds H. inversion H; subst. simpl.
    unfold attempt_ok at 1. rewrite Ha.
    specialize (IH _ Ha0).
    destruct (py_eq_str a "OK"); simpl.
    + apply Z.ltb_lt. lia.
    + exact IH.
Qed.

Lemma ping_rtts_none (attempts : list pyval) :
  forall rtts,
    ping_rtts attempts = Ok rtts ->
    existsb attempt_ok attempts = false ->
    rtts = [].
Proof.
  induction attempts as [|r rest IH]; simpl; intros rtts H Hno.
  - inversion H. reflexivity.
  - apply orb_false_iff in Hno. destruct Hno as [Hr Hrest].
    apply bind_Ok_inv in H. destruct H as (s & Hs & H).
    unfold attempt_ok in Hr. rewrite Hs in Hr. rewrite Hr in H.
    now apply IH.
Qed.

(** When [ping] reads a node's attempts into a record, [success] says
    whether some attempt has the status "OK"; when none has, the three
    latencies are the integer 0. *)
Theorem ping_success_means_an_ok_attempt
    (attempts rest : list pyval) (r : pydict) :
  (1 < List.length attempts)%nat ->
  ping_node (PList (PList attempts :: rest)) = Ok (PDict r) ->
  dict_find r "success" = Some (PBool (existsb attempt_ok attempts)) /\
  (existsb attempt_ok attempts = false ->
   dict_find r "avg_latency" = Some (PInt 0) /\
   dict_find r "min_latency" = Some (PInt 0) /\
   dict_find r "max_latency" = Some (PInt 0)).
Proof.
  intros Hlen H. simpl in H.
  replace (1 <? List.length attempts)%nat with true in H
    by (symmetry; apply Nat.ltb_lt; exact Hlen).
  unfold ping_metrics in H.
  apply bind_Ok_inv in H. destruct H as (statuses & Hst & H).
  apply bind_Ok_inv in H. destruct H as (rtts & Hrtts & H).
  pose proof (statuses_count _ _ Hst) as Hcount.
  split.
  - invert_binds H. inversion H; subst. simpl. now rewrite Hcount.
  - intros Hno. pose proof (ping_rtts_none _ _ Hrtts Hno) as ->.
    simpl in H. invert_binds H. inversion H; subst. simpl. auto.
Qed.

Lemma ping_success_means_an_ok_attempt_witness :
  dict_find [("success", PBool false); ("avg_latency", PInt 0);
             ("min_latency", PInt 0); ("max_latency", PInt 0);
             ("packet_loss", PFloat 100); ("ip", PNone)] "success"
    = Some (PBool (existsb attempt_ok
                     [PList [PStr "TIMEOUT"]; PList [PStr "TIMEOUT"]])) /\
  (existsb attempt_ok [PList [PStr "TIMEOUT"]; PList [PStr "TIMEOUT"]]
     = false ->
   dict_find [("success", PBool false); ("avg_latency", PInt 0);
              ("min_latency", PInt 0); ("max_latency", PInt 0);
              ("packet_loss", PFloat 100); ("ip", PNone)] "avg_latency"
     = Some (PInt 0) /\
   dict_find [("success", PBool false); ("avg_latency", PInt 0);
              ("min_latency", PInt 0); ("max_latency", PInt 0);
              ("packet_loss", PFloat 100); ("ip", PNone)] "min_latency"
     = Some (PInt 0) /\
   dict_find [("success", PBool false); ("avg_latency", PInt 0);
              ("min_latency", PInt 0); ("max_latency", PInt 0);
              ("packet_loss", PFloat 100); ("ip", PNone)] "max_latency"
     = Some (PInt 0)).
Proof.
  apply (ping_success_means_an_ok_attempt
           [PList [PStr "TIMEOUT"]; PList [PStr "TIMEOUT"]] []).
  - simpl. lia.
  - vm_compute. reflexivity.
Defined.

(** ** DNS, TCP, UDP and HTTP: the record of a well-shaped entry *)

Lemma dns_addresses_of_lists (records : list pyval) :
  (forall r, In r records -> is_list r = true) ->
  dns_addresses records =
    Ok (map second_field (filter has_two_fields records)).
Proof.
  induction records as [|r rest IH]; simpl; intros Hl.
  - reflexivity.
  - assert (Hr : is_list r = true) by (apply Hl; now left).
    destruct r as [| | | | |l|]; try discriminate.
    rewrite IH by (intros; apply Hl; now right).
    destruct l as [|x [|a l']]; reflexivity.
Qed.

(** For a DNS entry whose records are all lists and whose first record
    starts with a time that is falsy or multiplies by 1000, [dns_check]'s
    reading returns success, that time in milliseconds (0 when falsy) and,
    as addresses, the second field of every record that has two fields, in
    order. *)
Theorem dns_record_of_list_records
    (first : pyval) (others rest : list pyval) (t ms : pyval) :
  (forall r, In r (first :: others) -> is_list r = true) ->
  py_getitem first 0 = Ok t ->
  (if truthy t then py_mul_int t 1000 else Ok (PInt 0)) = Ok ms ->
  dns_node (PList (PList (first :: others) :: rest)) =
    Ok (PDict [("success", PBool true);
               ("resolution_time", ms);
               ("addresses",
                PList (map second_field
                         (filter has_two_fields (first :: others))))]).
Proof.
  intros Hl Ht Hms.
  change (dns_node (PList (PList (first :: others) :: rest)))
    with (dns_metrics (first :: others)).
  unfold dns_metrics. rewrite (dns_addresses_of_lists _ Hl).
  cbn [bind py_getitem nth_error]. rewrite Ht. cbn [bind].
  rewrite Hms. reflexivity.
Qed.

Lemma dns_record_of_list_records_witness :
  dns_node (PList [PList [PList [PFloat 0.05; PStr "9.9.9.9"];
                          PList [PNone; PStr "9.9.9.10"]]]) =
    Ok (PDict [("success", PBool true);
               ("resolution_time", PFloat 50);
               ("addresses",
                PList (map second_field
                         (filter has_two_fields
                            [PList [PFloat 0.05; PStr "9.9.9.9"];
                             PList [PNone; PStr "9.9.9.10"]])))]).
Proof.
  apply (dns_record_of_list_records
           (PList [PFloat 0.05; PStr "9.9.9.9"])
           [PList [PNone; PStr "9.9.9.10"]] [] (PFloat 0.05) (PFloat 50)).
  - intros r [H|[H|[]]]; subst r; reflexivity.
  - reflexivity.
  - vm_compute. reflexivity.
Defined.

(** For a TCP or UDP entry of at least two fields whose second field
    multiplies by 1000, the reading returns a record whose [success] is
    [fields[0] == 1], whose time is that product and whose [ip] is the
    third field when there is one, [None] otherwise. *)
Theorem tcp_udp_record_of_fields (f0 f1 : pyval) (more rest : list pyval)
    (t : pyval) :
  py_mul_int f1 1000 = Ok t ->
  tcp_node (PList (PList (f0 :: f1 :: more) :: rest)) =
    Ok (PDict [("success", PBool (py_eq_int f0 1));
               ("connect_time", t);
               ("ip", nth 0 more PNone)]) /\
  udp_node (PList (PList (f0 :: f1 :: more) :: rest)) =
    Ok (PDict [("success", PBool (py_eq_int f0 1));
               ("response_time", t);
               ("ip", nth 0 more PNone)]).
Proof.
  intros Hmul. split.
  - change (tcp_node (PList (PList (f0 :: f1 :: more) :: rest)))
      with (tcp_metrics (f0 :: f1 :: more)).
    unfold tcp_metrics. cbn [bind py_getitem nth_error]. rewrite Hmul.
    destruct more; reflexivity.
  - change (udp_node (PList (PList (f0 :: f1 :: more) :: rest)))
      with (udp_metrics (f0 :: f1 :: more)).
    unfold udp_metrics. cbn [bind py_getitem nth_error]. rewrite Hmul.
    destruct more; reflexivity.
Qed.

Lemma tcp_udp_record_of_fields_witness :
  tcp_node (PList [PList [PInt 1; PFloat 0.25; PStr "5.6.7.8"]]) =
    Ok (PDict [("success", PBool (py_eq_int (PInt 1) 1));
               ("connect_time", PFloat 250);
               ("ip", nth 0 [PStr "5.6.7.8"] PNone)]) /\
  udp_node (PList [PList [PInt 1; PFloat 0.25; PStr "5.6.7.8"]]) =
    Ok (PDict [("success", PBool (py_eq_int (PInt 1) 1));
               ("response_time", PFloat 250);
               ("ip", nth 0 [PStr "5.6.7.8"] PNone)]).
Proof.
  apply (tcp_udp_record_of_fields (PInt 1) (PFloat 0.25) [PStr "5.6.7.8"] []
           (PFloat 250)).
  vm_compute. reflexivity.
Defined.


(** * Further properties of the job client *)

Section PollRounds.

Variable sleep_extra : nat -> Q.
Variable net : nat -> reply.
Hypothesis sleep_extra_nonneg : forall k, (0 <= sleep_extra k)%Q.
Hypothesis latency_nonneg : forall k, (0 <= latency (net k))%Q.

Lemma poll_loop_past_ceiling (fuel : nat) (check_id : pyval)
    (start elapsed : Q) (w : world) :
  (MAX_WAIT_TIME <= elapsed)%Q ->
  poll_loop sleep_extra net fuel check_id start elapsed w
    = Some (timeout_incomplete, w).
Proof.
  intros H. destruct fuel; cbn [poll_loop];
    destruct (Qlt_le_dec elapsed MAX_WAIT_TIME) as [Hlt|_];
    try reflexivity; exfalso; apply (Qlt_not_le _ _ Hlt H).
Qed.

Lemma poll_rounds (check_id : pyval) (start : Q) :
  forall fuel elapsed w,
    (elapsed == clock w - start)%Q ->
    (elapsed < MAX_WAIT_TIME)%Q ->
    (MAX_WAIT_TIME - elapsed
     <= inject_Z (Z.of_nat fuel) * RESULT_WAIT_TIME)%Q ->
    exists n r w',
      poll_loop sleep_extra net fuel check_id start elapsed w
        = Some (r, w') /\
      log w' = (log w ++ polls (S n) check_id)%list /\
      poll_outcome (outcome (net (gets w + n)%nat)) r /\
      (forall i, (i < n)%nat ->
         complete_reply (outcome (net (gets w + i)%nat)) = false) /\
      (inject_Z (Z.of_nat n) * RESULT_WAIT_TIME + elapsed
       < MAX_WAIT_TIME)%Q /\
      (complete_reply (outcome (net (gets w + n)%nat)) = false ->
       (MAX_WAIT_TIME <= clock w' - start)%Q).
Proof.
  induction fuel as [|fuel IH]; intros elapsed w Hel Hlt Hfuel.
  - exfalso. unfold MAX_WAIT_TIME, RESULT_WAIT_TIME in *.
    change (inject_Z (Z.of_nat 0)) with 0%Q in Hfuel. lra.
  - cbn [poll_loop].
    destruct (Qlt_le_dec elapsed MAX_WAIT_TIME) as [_|Hge];
      [|exfalso; apply (Qlt_not_le _ _ Hlt Hge)].
    unfold bindM at 1. unfold time_sleep at 1.
    unfold bindM at 1. unfold session_get at 1.
    cbn [gets sleeps log clock].
    set (w1 := {| clock := (clock w + RESULT_WAIT_TIME
                            + sleep_extra (sleeps w)
                            + latency (net (gets w)))%Q;
                  sleeps := S (sleeps w);
                  gets := S (gets w);
                  log := ((log w ++ [EvSleep RESULT_WAIT_TIME])
                          ++ [EvResult check_id])%list |}).
    pose proof (sleep_extra_nonneg (sleeps w)) as Hs.
    pose proof (latency_nonneg (gets w)) as Hl.
    assert (Hlog1 : log w1 = (log w ++ polls 1 check_id)%list).
    { unfold polls. simpl. rewrite <- app_assoc. reflexivity. }
    assert (Hnext :
      (clock w1 - start < MAX_WAIT_TIME)%Q ->
      complete_reply (outcome (net (gets w))) = false ->
      exists n r w',
        poll_loop sleep_extra net fuel check_id start (clock w1 - start) w1
          = Some (r, w') /\
        log w' = (log w ++ polls (S n) check_id)%list /\
        poll_outcome (outcome (net (gets w + n)%nat)) r /\
        (forall i, (i < n)%nat ->
           complete_reply (outcome (net (gets w + i)%nat)) = false) /\
        (inject_Z (Z.of_nat n) * RESULT_WAIT_TIME + elapsed
         < MAX_WAIT_TIME)%Q /\
        (complete_reply (outcome (net (gets w + n)%nat)) = false ->
         (MAX_WAIT_TIME <= clock w' - start)%Q)).
    { intros Hlt1 Hinc.
      destruct (IH (clock w1 - start)%Q w1) as
          (n & r & w' & Hrun & Hlog & Hout & Hearly & Hbound & Hlate).
      - reflexivity.
      - exact Hlt1.
      - rewrite inject_nat_S in Hfuel. simpl.
        unfold MAX_WAIT_TIME, RESULT_WAIT_TIME in *. lra.
      - exists (S n), r, w'.
        replace (gets w + S n)%nat with (gets w1 + n)%nat
          by (simpl; lia).
        split; [exact Hrun|]. split.
        { rewrite Hlog, Hlog1. unfold polls. simpl.
          rewrite <- !app_assoc. reflexivity. }
        split; [exact Hout|]. split.
        { intros [|i] Hi.
          - replace (gets w + 0)%nat with (gets w) by lia. exact Hinc.
          - replace (gets w + S i)%nat with (gets w1 + i)%nat
              by (simpl; lia).
            apply Hearly. lia. }
        split; [|exact Hlate].
        rewrite inject_nat_S. simpl in Hbound.
        unfold MAX_WAIT_TIME, RESULT_WAIT_TIME in *. lra. }
    assert (Hzero : (inject_Z (Z.of_nat 0) * RESULT_WAIT_TIME + elapsed
                     < MAX_WAIT_TIME)%Q).
    { change (inject_Z (Z.of_nat 0)) with 0%Q. lra. }
    destruct (outcome (net (gets w))) as [e|p] eqn:Hreply.
    + (* the transport failed *)
      unfold bindM at 1. unfold time_time at 1.
      change (clock w1) with (clock w + RESULT_WAIT_TIME
                              + sleep_extra (sleeps w)
                              + latency (net (gets w)))%Q.
      fold w1.
      change (clock w + RESULT_WAIT_TIME + sleep_extra (sleeps w)
              + latency (net (gets w)))%Q with (clock w1).
      destruct (Qlt_le_dec (clock w1 - start) MAX_WAIT_TIME) as [Hlt1|Hge1].
      * apply Hnext; [exact Hlt1 | reflexivity].
      * exists O, (timeout_transport e), w1.
        replace (gets w + 0)%nat with (gets w) by lia. rewrite Hreply.
        unfold ret. repeat split; auto. intros i Hi. lia.
    + destruct (all_responded p) eqn:Hall.
      * exists O, (PDict p), w1.
        replace (gets w + 0)%nat with (gets w) by lia. rewrite Hreply.
        unfold ret, poll_outcome, complete_reply. rewrite Hall.
        repeat split; auto; try discriminate. intros i Hi. lia.
      * unfold bindM at 1. unfold time_time at 1.
        change (clock {| clock := (clock w + RESULT_WAIT_TIME
                                   + sleep_extra (sleeps w)
                                   + latency (net (gets w)))%Q;
                         sleeps := S (sleeps w);
                         gets := S (gets w);
                         log := ((log w ++ [EvSleep RESULT_WAIT_TIME])
                                 ++ [EvResult check_id])%list |})
          with (clock w1).
        fold w1.
        destruct (Qlt_le_dec (clock w1 - start) MAX_WAIT_TIME)
          as [Hlt1|Hge1].
        -- apply Hnext; [exact Hlt1|]. simpl. exact Hall.
        -- rewrite (poll_loop_past_ceiling _ _ _ _ _ Hge1).
           exists O, timeout_incomplete, w1.
           replace (gets w + 0)%nat with (gets w) by lia. rewrite Hreply.
           unfold poll_outcome, complete_reply. rewrite Hall.
           repeat split; auto. intros i Hi. lia.
Qed.

End PollRounds.

Lemma rounds_below_three (n : nat) :
  (inject_Z (Z.of_nat n) * RESULT_WAIT_TIME + 0 < MAX_WAIT_TIME)%Q ->
  (n < 3)%nat.
Proof.
  intros H. destruct (le_lt_dec 3 n) as [Hge|]; [exfalso|assumption].
  assert (H3 : (3 <= inject_Z (Z.of_nat n))%Q).
  { change 3%Q with (inject_Z 3). rewrite <- Zle_Qle. lia. }
  unfold MAX_WAIT_TIME, RESULT_WAIT_TIME in H. lra.
Qed.



(** When every poll fails at the transport and sleeps last at least as
    long as asked, the poll loop makes one to three rounds and returns
    ['Timeout waiting for results: <message>'] with the message of the
    last failure, once 30 seconds have passed. *)
Theorem transport_failures_time_out
    (sleep_extra : nat -> Q) (net : nat -> reply) (msg : nat -> string)
    (check_id : pyval) (w : world) (fuel : nat) :
  (forall k, (0 <= sleep_extra k)%Q) ->
  (forall k, (0 <= latency (net k))%Q) ->
  (forall k, (gets w <= k)%nat -> outcome (net k) = inl (msg k)) ->
  (3 <= fuel)%nat ->
  exists n w',
    _get_check_results sleep_extra net fuel check_id w
      = Some (timeout_transport (msg (gets w + n)%nat), w') /\
    (n < 3)%nat /\
    log w' = (log w ++ polls (S n) check_id)%list /\
    (MAX_WAIT_TIME <= clock w' - clock w)%Q.
Proof.
  intros Hs Hl Hnet Hfuel.
  destruct (poll_rounds sleep_extra net Hs Hl check_id (clock w) fuel 0%Q w)
    as (n & r & w' & Hrun & Hlog & Hout & _ & Hbound & Hlate).
  - lra.
  - reflexivity.
  - assert (H3 : (3 <= inject_Z (Z.of_nat fuel))%Q).
    { change 3%Q with (inject_Z 3). rewrite <- Zle_Qle. lia. }
    unfold MAX_WAIT_TIME, RESULT_WAIT_TIME. lra.
  - rewrite (Hnet (gets w + n)%nat) in Hout, Hlate by lia.
    simpl in Hout, Hlate. subst r.
    exists n, w'. split; [exact Hrun|].
    split; [now apply rounds_below_three|]. auto.
Qed.

Lemma transport_failures_time_out_witness :
  exists n w',
    _get_check_results punctual (always (inl "connection reset")) 3
      (PStr "2f3a") world0
      = Some (timeout_transport "connection reset", w') /\
    (n < 3)%nat /\
    log w' = (log world0 ++ polls (S n) (PStr "2f3a"))%list /\
    (MAX_WAIT_TIME <= clock w' - clock world0)%Q.
Proof.
  apply (transport_failures_time_out punctual
           (always (inl "connection reset"))
           (fun _ => "connection reset") (PStr "2f3a") world0 3).
  - intros k. unfold punctual. lra.
  - intros k. simpl. lra.
  - intros k _. reflexivity.
  - lia.
Defined.

(** ** Submission *)

Ltac submit_steps :=
  cbv beta iota zeta delta
    [submit_loop bindM session_get time_sleep ret gets sleeps log clock
     Nat.eqb MAX_RETRIES Nat.sub].

(** Submission ends with the first response that carries a handle: no
    further attempt is made, and the check goes on to poll with that
    handle. Before it, each attempt without a handle is followed by a
    2-second sleep only where the transport failed. *)
Theorem submission_stops_at_first_handle
    (sleep_extra : nat -> Q) (net : nat -> reply) (ct : check_type)
    (fuel : nat) (host : string) (nodes : list string) (w : world)
    (i : nat) (body : pydict) :
  (i < 3)%nat ->
  (forall j, (j < i)%nat ->
     lacks_handle (outcome (net (gets w + j)%nat)) = true) ->
  outcome (net (gets w + i)%nat) = inr body ->
  truthy (dict_get body "request_id") = true ->
  exists w_i,
    gets w_i = (gets w + S i)%nat /\
    log w_i =
      (log w
       ++ submission_log (endpoint_of ct) host nodes
            (map (fun j => outcome (net (gets w + j)%nat)) (seq 0 i))
       ++ [EvSubmit (endpoint_of ct) host nodes])%list /\
    check_of sleep_extra net ct fuel host (Some nodes) w =
      _get_check_results sleep_extra net fuel
        (dict_get body "request_id") w_i.
Proof.
  destruct w as [c s g l]. cbn [gets log].
  intros Hi Hbefore Hbody Hid.
  assert (Hid' : negb (truthy (dict_get body "request_id")) = false)
    by now rewrite Hid.
  rewrite check_of_unfold. unfold check.
  change (seq 0 MAX_RETRIES) with [0; 1; 2]%nat.
  destruct i as [|[|[|i]]]; [| | |lia].
  - replace (g + 0)%nat with g in * by lia.
    submit_steps. rewrite Hbody. submit_steps. rewrite Hid'.
    eexists. split; [|split]; [| |reflexivity]; cbn [gets log].
    + lia.
    + reflexivity.
  - pose proof (Hbefore 0%nat ltac:(lia)) as H0.
    replace (g + 0)%nat with g in * by lia.
    replace (g + 1)%nat with (S g) in * by lia.
    destruct (outcome (net g)) as [e0|b0] eqn:E0; cbn [lacks_handle] in H0;
      repeat (submit_steps; rewrite ?E0, ?Hbody, ?H0, ?Hid');
      (eexists; split; [|split]; [| |reflexivity]; cbn [gets log];
       [lia | cbn [seq map submission_log List.concat backoff app];
              replace (g + 0)%nat with g by lia; rewrite E0;
              cbn [backoff app]; rewrite <- ?app_assoc; reflexivity]).
  - pose proof (Hbefore 0%nat ltac:(lia)) as H0.
    pose proof (Hbefore 1%nat ltac:(lia)) as H1.
    replace (g + 0)%nat with g in * by lia.
    replace (g + 1)%nat with (S g) in * by lia.
    replace (g + 2)%nat with (S (S g)) in * by lia.
    destruct (outcome (net g)) as [e0|b0] eqn:E0;
      destruct (outcome (net (S g))) as [e1|b1] eqn:E1;
      cbn [lacks_handle] in H0, H1;
      repeat (submit_steps; rewrite ?E0, ?E1, ?Hbody, ?H0, ?H1, ?Hid');
      (eexists; split; [|split]; [| |reflexivity]; cbn [gets log];
       [lia | cbn [seq map submission_log List.concat backoff app];
              replace (g + 0)%nat with g by lia;
              replace (g + 1)%nat with (S g) by lia; rewrite E0, E1;
              cbn [backoff app]; rewrite <- ?app_assoc; reflexivity]).
Qed.

Lemma submission_stops_at_first_handle_witness :
  exists w_i,
    gets w_i = (gets world0 + 2)%nat /\
    log w_i =
      (log world0
       ++ submission_log (endpoint_of Tcp) "example.org:443" [us1]
            (map (fun j =>
                    outcome
                      (match (gets world0 + j)%nat with
                       | O => mk_reply 0 (inl "connection reset")
                       | _ => mk_reply 0 (inr [("request_id", PStr "2f3a")])
                       end)) (seq 0 1))
       ++ [EvSubmit (endpoint_of Tcp) "example.org:443" [us1]])%list /\
    check_of punctual
      (fun k => match k with
                | O => mk_reply 0 (inl "connection reset")
                | _ => mk_reply 0 (inr [("request_id", PStr "2f3a")])
                end) Tcp 3 "example.org:443" (Some [us1]) world0 =
      _get_check_results punctual
        (fun k => match k with
                  | O => mk_reply 0 (inl "connection reset")
                  | _ => mk_reply 0 (inr [("request_id", PStr "2f3a")])
                  end) 3
        (dict_get [("request_id", PStr "2f3a")] "request_id") w_i.
Proof.
  apply (submission_stops_at_first_handle punctual
           (fun k => match k with
                     | O => mk_reply 0 (inl "connection reset")
                     | _ => mk_reply 0 (inr [("request_id", PStr "2f3a")])
                     end) Tcp 3 "example.org:443" [us1] world0 1
           [("request_id", PStr "2f3a")]).
  - lia.
  - intros j Hj. assert (j = 0)%nat by lia. subst j. reflexivity.
  - reflexivity.
  - reflexivity.
Defined.

(** ** The methods of [NetworkTester] as a whole *)

(** The target a method submits. *)
Lemma run_check_unfold (sleep_extra : nat -> Q) (net : nat -> reply)
    (ct : check_type) (fuel : nat) (target : string) (w : world) :
  run_check sleep_extra net ct fuel target w =
  match check_of sleep_extra net ct fuel
          (match ct with Http => with_scheme target | _ => target end)
          (Some (map fst NODE_DETAILS)) w with
  | Some (PDict d, w') => Some (normalizer ct d, w')
  | Some (_, w') => Some (Raise TypeError, w')
  | None => None
  end.
Proof.
  unfold run_check, bindM, with_scheme.
  destruct ct;
    match goal with
    | |- match ?c with _ => _ end = match ?c' with _ => _ end =>
        change c' with c; destruct c as [[[] ?]|]; reflexivity
    end.
Qed.

Lemma outcome_and_log_inv {A} (r : option (A * world)) (a : A)
    (l : list event) :
  outcome_and_log r = Some (a, l) ->
  exists w', r = Some (a, w') /\ log w' = l.
Proof.
  destruct r as [[a' w']|]; simpl; intros H; inversion H; subst; eauto.
Qed.

(** When none of the three submissions yields a handle, each method of
    [NetworkTester] returns the single entry [{'error': message}] with the
    message of the last attempt's cause, after exactly three requests and
    no poll. *)
Theorem exhausted_submission_surfaces_as_error
    (sleep_extra : nat -> Q) (net : nat -> reply) (ct : check_type)
    (fuel : nat) (target : string) (w : world) :
  let host := match ct with Http => with_scheme target | _ => target end in
  let nodes := map fst NODE_DETAILS in
  let r := fun i => outcome (net (gets w + i)%nat) in
  lacks_handle (r 0%nat) = true ->
  lacks_handle (r 1%nat) = true ->
  lacks_handle (r 2%nat) = true ->
  exists msg,
    submission_error (r 2%nat) = PDict [("error", PStr msg)] /\
    outcome_and_log (run_check sleep_extra net ct fuel target w) =
      Some (Ok [("error", PStr msg)],
            (log w ++ [EvSubmit (endpoint_of ct) host nodes] ++ backoff (r 0%nat)
                   ++ [EvSubmit (endpoint_of ct) host nodes] ++ backoff (r 1%nat)
                   ++ [EvSubmit (endpoint_of ct) host nodes])%list).
Proof.
  intros host nodes r H0 H1 H2.
  pose proof (submit_exhausted sleep_extra net ct fuel host nodes w H0 H1 H2)
    as Hsub.
  apply outcome_and_log_inv in Hsub. destruct Hsub as (w' & Hrun & Hlog).
  rewrite run_check_unfold. fold host nodes. rewrite Hrun.
  subst r. cbv beta in *.
  destruct (outcome (net (gets w + 2)%nat)) as [e|b];
    cbn [submission_error request_failed no_check_id outcome_and_log
         option_map fst snd];
    eexists; (split; [reflexivity|]); rewrite Hlog;
    destruct ct; reflexivity.
Qed.

Lemma exhausted_submission_surfaces_as_error_witness :
  exists msg,
    submission_error
      (outcome (always (inl "connection reset") (gets world0 + 2)%nat))
      = PDict [("error", PStr msg)] /\
    outcome_and_log
      (run_check punctual (always (inl "connection reset")) Http 3
         "example.org" world0) =
      Some (Ok [("error", PStr msg)],
            (log world0
             ++ [EvSubmit (endpoint_of Http) (with_scheme "example.org")
                   (map fst NODE_DETAILS)]
             ++ backoff (outcome (always (inl "connection reset")
                                    (gets world0 + 0)%nat))
             ++ [EvSubmit (endpoint_of Http) (with_scheme "example.org")
                   (map fst NODE_DETAILS)]
             ++ backoff (outcome (always (inl "connection reset")
                                    (gets world0 + 1)%nat))
             ++ [EvSubmit (endpoint_of Http) (with_scheme "example.org")
                   (map fst NODE_DETAILS)])%list).
Proof.
  apply (exhausted_submission_surfaces_as_error punctual
           (always (inl "connection reset")) Http 3 "example.org" world0);
    reflexivity.
Defined.

Lemma check_with_handle_at_once
    (sleep_extra : nat -> Q) (net : nat -> reply) (ct : check_type)
    (fuel : nat) (host : string) (nodes : list string) (w : world)
    (body : pydict) :
  outcome (net (gets w)) = inr body ->
  truthy (dict_get body "request_id") = true ->
  check_of sleep_extra net ct fuel host (Some nodes) w =
    _get_check_results sleep_extra net fuel (dict_get body "request_id")
      {| clock := (clock w + latency (net (gets w)))%Q;
         sleeps := sleeps w;
         gets := S (gets w);
         log := (log w ++ [EvSubmit (endpoint_of ct) host nodes])%list |}.
Proof.
  intros Hbody Hid.
  rewrite check_of_unfold. unfold check.
  change (seq 0 MAX_RETRIES) with [0; 1; 2]%nat.
  cbn [submit_loop]. unfold bindM at 1. unfold session_get at 1.
  rewrite Hbody, Hid. reflexivity.
Qed.

(** A check that is accepted at once but whose nodes never report (every
    poll returns the same non-empty payload of nulls) makes each method of
    [NetworkTester] return the single entry
    [{'error': 'Timeout waiting for all nodes to respond'}], after one
    submission and one to three polls, when sleeps last at least as long
    as asked. *)
Theorem unanswered_check_ends_as_timeout_error
    (sleep_extra : nat -> Q) (net : nat -> reply) (ct : check_type)
    (fuel : nat) (target : string) (w : world) (body payload : pydict) :
  (forall k, (0 <= sleep_extra k)%Q) ->
  (forall k, (0 <= latency (net k))%Q) ->
  outcome (net (gets w)) = inr body ->
  truthy (dict_get body "request_id") = true ->
  payload <> [] ->
  (forall kv, In kv payload -> snd kv = PNone) ->
  (forall k, (gets w < k)%nat -> outcome (net k) = inr payload) ->
  (3 <= fuel)%nat ->
  exists n w',
    run_check sleep_extra net ct fuel target w =
      Some (Ok [("error",
                 PStr "Timeout waiting for all nodes to respond")], w') /\
    (n < 3)%nat /\
    log w' =
      (log w
       ++ [EvSubmit (endpoint_of ct)
             (match ct with Http => with_scheme target | _ => target end)
             (map fst NODE_DETAILS)]
       ++ polls (S n) (dict_get body "request_id"))%list.
Proof.
  intros Hs Hl Hbody Hid Hne Hnull Hnet Hfuel.
  rewrite run_check_unfold.
  rewrite (check_with_handle_at_once _ _ _ _ _ _ _ _ Hbody Hid).
  unfold _get_check_results, bindM at 1, time_time at 1. cbn [clock].
  match goal with
  | |- context [poll_loop _ _ _ ?cid ?start _ ?w0] =>
      destruct (poll_rounds sleep_extra net Hs Hl cid start fuel 0%Q w0)
        as (n & r & w' & Hrun & Hlog & Hout & _ & Hbound & _)
  end.
  - simpl. lra.
  - reflexivity.
  - assert (H3 : (3 <= inject_Z (Z.of_nat fuel))%Q).
    { change 3%Q with (inject_Z 3). rewrite <- Zle_Qle. lia. }
    unfold MAX_WAIT_TIME, RESULT_WAIT_TIME. lra.
  - cbn [gets log] in Hout, Hlog.
    rewrite Hnet in Hout by lia. unfold poll_outcome in Hout.
    rewrite (all_null_incomplete payload Hne Hnull) in Hout. subst r.
    exists n, w'. rewrite Hrun. split.
    + unfold timeout_incomplete. destruct ct; reflexivity.
    + split; [now apply rounds_below_three|].
      rewrite Hlog, <- app_assoc. reflexivity.
Qed.

Lemma unanswered_check_ends_as_timeout_error_witness :
  exists n w',
    run_check punctual
      (fun k => match k with
                | O => mk_reply 0 (inr [("request_id", PStr "2f3a")])
                | _ => mk_reply 0 (inr [(us1, PNone); (de1, PNone)])
                end) Dns 3 "example.org" world0 =
      Some (Ok [("error",
                 PStr "Timeout waiting for all nodes to respond")], w') /\
    (n < 3)%nat /\
    log w' =
      (log world0
       ++ [EvSubmit (endpoint_of Dns) "example.org" (map fst NODE_DETAILS)]
       ++ polls (S n) (dict_get [("request_id", PStr "2f3a")]
                         "request_id"))%list.
Proof.
  apply (unanswered_check_ends_as_timeout_error punctual
           (fun k => match k with
                     | O => mk_reply 0 (inr [("request_id", PStr "2f3a")])
                     | _ => mk_reply 0 (inr [(us1, PNone); (de1, PNone)])
                     end) Dns 3 "example.org" world0
           [("request_id", PStr "2f3a")] [(us1, PNone); (de1, PNone)]).
  - intros k. unfold punctual. lra.
  - intros [|k]; simpl; lra.
  - reflexivity.
  - reflexivity.
  - discriminate.
  - intros kv [H|[H|[]]]; subst kv; reflexivity.
  - intros [|k] Hk; [simpl in Hk; lia | reflexivity].
  - lia.
Defined.

(** ** The URL of an HTTP check *)

(** [http_check] submits a URL that starts with [http://] or [https://]:
    one that does is submitted as it is, any other gets [http://] in
    front; completing a URL twice changes nothing more, and a check of
    the completed URL is the same run as a check of the URL. *)
Theorem http_target_has_a_scheme (url : string) :
  (String.prefix "http://" (with_scheme url)
   || String.prefix "https://" (with_scheme url)) = true /\
  with_scheme (with_scheme url) = with_scheme url /\
  (forall sleep_extra net fuel w,
     run_check sleep_extra net Http fuel (with_scheme url) w =
     run_check sleep_extra net Http fuel url w).
Proof.
  assert (H1 : (String.prefix "http://" (with_scheme url)
                || String.prefix "https://" (with_scheme url)) = true).
  { unfold with_scheme.
    destruct (String.prefix "http://" url || String.prefix "https://" url)
      eqn:E; [exact E | destruct url; reflexivity]. }
  assert (H2 : with_scheme (with_scheme url) = with_scheme url).
  { unfold with_scheme at 1. now rewrite H1. }
  repeat split; auto.
  intros. rewrite !run_check_unfold, H2. reflexivity.
Qed.

(** * Properties of the display functions *)

Section DisplayProps.

Variable builtin_str : pyval -> string.
Variable format_number : pyval -> string.

Let show := display_of builtin_str format_number.

(** A failed check comes back from every method as [{'error': message}],
    and the display function of the method cannot show it: it takes the
    message for a record, prints the title, the header and the rule, and
    raises [AttributeError] (from [data.get]) when the message does not
    contain "error", [TypeError] (from [data['error']]) when it does. The
    two fixed messages of the client end in [AttributeError]. *)
Theorem display_fails_on_api_error (ct : check_type) (msg : string) :
  normalizer ct [("error", PStr msg)] = Ok [("error", PStr msg)] /\
  show ct [("error", PStr msg)] =
    (fst (show ct []),
     Some (if is_substring "error" msg then Builtin TypeError
           else AttributeError)) /\
  is_substring "error" "Timeout waiting for all nodes to respond" = false /\
  is_substring "error" "No check ID received after retries" = false.
Proof.
  split; [destruct ct; reflexivity|]. split; [|split; reflexivity].
  unfold show.
  destruct ct; cbv [display_of display_ping_results display_http_results
                    display_tcp_results display_udp_results
                    display_dns_results display print_rows fst
                    ping_row http_row tcp_row udp_row port_row dns_row
                    contains_error bindT];
    destruct (is_substring "error" msg); reflexivity.
Qed.

Lemma print_rows_error_records (row : string -> pyval -> try string)
    (results : pydict) :
  (forall loc data, In (loc, data) results -> exists line,
     row loc data = Done line) ->
  snd (print_rows row results) = None /\
  List.length (fst (print_rows row results)) = List.length results.
Proof.
  induction results as [|[loc data] rest IH]; simpl; intros H.
  - auto.
  - destruct (H loc data) as [line Hline]; [now left|]. rewrite Hline.
    destruct IH as [IH1 IH2]; [intros; apply H; now right|].
    destruct (print_rows row rest) as [lines e]. simpl in *. auto.
Qed.

Lemma display_rows (ct : check_type) (results : pydict) :
  exists row,
    (row = ping_row format_number \/ row = http_row builtin_str format_number
     \/ row = tcp_row format_number \/ row = udp_row format_number
     \/ row = dns_row format_number) /\
    (ct = Ping -> row = ping_row format_number) /\
    (ct = Http -> row = http_row builtin_str format_number) /\
    (ct = Tcp -> row = tcp_row format_number) /\
    (ct = Udp -> row = udp_row format_number) /\
    (ct = Dns -> row = dns_row format_number) /\
    snd (show ct results) = snd (print_rows row results) /\
    List.length (fst (show ct results)) =
      (3 + List.length (fst (print_rows row results)))%nat.
Proof.
  unfold show.
  destruct ct;
    [exists (ping_row format_number)
    |exists (http_row builtin_str format_number)
    |exists (tcp_row format_number)
    |exists (udp_row format_number)
    |exists (dns_row format_number)];
    (repeat split; auto; try discriminate;
     cbv [display_of display_ping_results display_http_results
          display_tcp_results display_udp_results display_dns_results
          display];
     destruct (print_rows _ results); reflexivity).
Qed.

(** A result whose entries are all error records of the method ("No
    <Type> data", "Invalid <Type> response") is displayed without an
    exception, one row per entry under the three heading lines. *)
Theorem display_shows_error_records (ct : check_type) (results : pydict) :
  (forall loc data, In (loc, data) results ->
     data = no_data_record ct \/ data = invalid_record ct) ->
  snd (show ct results) = None /\
  List.length (fst (show ct results)) = (3 + List.length results)%nat.
Proof.
  intros H.
  destruct (display_rows ct results)
    as (row & _ & Hp & Hh & Ht & Hu & Hd & Hsnd & Hlen).
  rewrite Hsnd, Hlen.
  destruct (print_rows_error_records row results) as [H1 H2].
  - intros loc data Hin.
    destruct ct;
      [rewrite (Hp eq_refl) | rewrite (Hh eq_refl) | rewrite (Ht eq_refl)
      | rewrite (Hu eq_refl) | rewrite (Hd eq_refl)];
      destruct (H loc data Hin) as [-> | ->]; eexists; reflexivity.
  - rewrite H1, H2. auto.
Qed.

End DisplayProps.

Lemma display_shows_error_records_witness :
  snd (display_of (fun _ => "") (fun _ => "") Udp
         [("USA (Los Angeles)", no_data_record Udp);
          ("Germany (Nuremberg)", invalid_record Udp)]) = None /\
  List.length
    (fst (display_of (fun _ => "") (fun _ => "") Udp
            [("USA (Los Angeles)", no_data_record Udp);
             ("Germany (Nuremberg)", invalid_record Udp)]))
    = (3 + List.length
             [("USA (Los Angeles)", no_data_record Udp);
              ("Germany (Nuremberg)", invalid_record Udp)])%nat.
Proof.
  apply (display_shows_error_records (fun _ => "") (fun _ => "") Udp).
  intros loc data [H|[H|[]]]; inversion H; subst; auto.
Defined.

Lemma seconds_to_ms (f : float) :
  py_mul_int (PFloat f) 1000 = Ok (PFloat (f * 1000)%float).
Proof. reflexivity. Qed.

(** A node that reports success without an address (a TCP or UDP entry of
    two fields, an HTTP entry of four) is normalised to a successful
    record whose [ip] is [None], and the display function then raises
    [TypeError] at that row, after the three heading lines: [None] cannot
    be formatted with [:<15]. *)
Theorem display_fails_without_address
    (builtin_str format_number : pyval -> string)
    (id : string) (d : node_info) (f0 msg code : pyval) (f : float) :
  node_details id = Some d ->
  py_eq_int f0 1 = true ->
  (exists res,
     tcp_check [(id, PList [PList [f0; PFloat f]])] = Ok res /\
     display_tcp_results format_number res =
       (fst (display_tcp_results format_number []),
        Some (Builtin TypeError))) /\
  (exists res,
     udp_check [(id, PList [PList [f0; PFloat f]])] = Ok res /\
     display_udp_results format_number res =
       (fst (display_udp_results format_number []),
        Some (Builtin TypeError))) /\
  (exists res,
     http_check [(id, PList [PList [f0; PFloat f; msg; code]])] = Ok res /\
     display_http_results builtin_str format_number res =
       (fst (display_http_results builtin_str format_number []),
        Some (Builtin TypeError))).
Proof.
  intros Hd H1.
  split; [|split]; eexists; (split; [apply normalize_single; [exact Hd|]|]).
  - cbn [tcp_node List.length Nat.ltb Nat.leb]. unfold tcp_metrics.
    cbn [py_getitem nth_error bind]. rewrite seconds_to_ms, H1. reflexivity.
  - reflexivity.
  - cbn [udp_node List.length Nat.ltb Nat.leb]. unfold udp_metrics.
    cbn [py_getitem nth_error bind]. rewrite seconds_to_ms, H1. reflexivity.
  - reflexivity.
  - cbn [http_node List.length Nat.ltb Nat.leb]. unfold http_metrics.
    cbn [py_getitem nth_error bind]. rewrite seconds_to_ms, H1. reflexivity.
  - reflexivity.
Qed.

Lemma display_fails_without_address_witness :
  (exists res,
     tcp_check [(us1, PList [PList [PInt 1; PFloat 0.25]])] = Ok res /\
     display_tcp_results (fun _ => "") res =
       (fst (display_tcp_results (fun _ => "") []),
        Some (Builtin TypeError))) /\
  (exists res,
     udp_check [(us1, PList [PList [PInt 1; PFloat 0.25]])] = Ok res /\
     display_udp_results (fun _ => "") res =
       (fst (display_udp_results (fun _ => "") []),
        Some (Builtin TypeError))) /\
  (exists res,
     http_check [(us1, PList [PList [PInt 1; PFloat 0.25; PStr "OK";
                                     PInt 200]])] = Ok res /\
     display_http_results (fun _ => "") (fun _ => "") res =
       (fst (display_http_results (fun _ => "") (fun _ => "") []),
        Some (Builtin TypeError))).
Proof.
  apply (display_fails_without_address (fun _ => "") (fun _ => "") us1
           (mk_node "USA" "Los Angeles" "NA") (PInt 1) (PStr "OK")
           (PInt 200) 0.25%float); reflexivity.
Defined.

(** A TCP or UDP node that reports success, a time in seconds as a float
    and an address as a string is shown in one row: its label, the green
    status word, the time in milliseconds with one decimal and the
    address, each padded to its column. *)
Theorem display_shows_port_success
    (format_number : pyval -> string)
    (id : string) (d : node_info) (f0 : pyval) (f : float) (ip : string) :
  node_details id = Some d ->
  py_eq_int f0 1 = true ->
  (exists res,
     tcp_check [(id, PList [PList [f0; PFloat f; PStr ip]])] = Ok res /\
     display_tcp_results format_number res =
       (List.app (fst (display_tcp_results format_number []))
          [ljust (region_label d) 30 ++ " "
             ++ ljust (Fore_GREEN ++ "OPEN" ++ Style_RESET_ALL) 10 ++ " "
             ++ ljust (float_1f (f * 1000) ++ " ms") 15 ++ " "
             ++ ljust ip 15], None)) /\
  (exists res,
     udp_check [(id, PList [PList [f0; PFloat f; PStr ip]])] = Ok res /\
     display_udp_results format_number res =
       (List.app (fst (display_udp_results format_number []))
          [ljust (region_label d) 30 ++ " "
             ++ ljust (Fore_GREEN ++ "UP" ++ Style_RESET_ALL) 10 ++ " "
             ++ ljust (float_1f (f * 1000) ++ " ms") 15 ++ " "
             ++ ljust ip 15], None)).
Proof.
  intros Hd H1.
  split; eexists; (split; [apply normalize_single; [exact Hd|]|]).
  - cbn [tcp_node List.length Nat.ltb Nat.leb]. unfold tcp_metrics.
    cbn [py_getitem nth_error bind]. rewrite seconds_to_ms, H1. reflexivity.
  - reflexivity.
  - cbn [udp_node List.length Nat.ltb Nat.leb]. unfold udp_metrics.
    cbn [py_getitem nth_error bind]. rewrite seconds_to_ms, H1. reflexivity.
  - reflexivity.
Qed.

Lemma display_shows_port_success_witness :
  (exists res,
     tcp_check [(us1, PList [PList [PInt 1; PFloat 0.25; PStr "5.6.7.8"]])]
       = Ok res /\
     display_tcp_results (fun _ => "") res =
       (List.app (fst (display_tcp_results (fun _ => "") []))
          [ljust (region_label (mk_node "USA" "Los Angeles" "NA")) 30
             ++ " "
             ++ ljust (Fore_GREEN ++ "OPEN" ++ Style_RESET_ALL) 10 ++ " "
             ++ ljust (float_1f (0.25 * 1000) ++ " ms") 15 ++ " "
             ++ ljust "5.6.7.8" 15], None)) /\
  (exists res,
     udp_check [(us1, PList [PList [PInt 1; PFloat 0.25; PStr "5.6.7.8"]])]
       = Ok res /\
     display_udp_results (fun _ => "") res =
       (List.app (fst (display_udp_results (fun _ => "") []))
          [ljust (region_label (mk_node "USA" "Los Angeles" "NA")) 30
             ++ " "
             ++ ljust (Fore_GREEN ++ "UP" ++ Style_RESET_ALL) 10 ++ " "
             ++ ljust (float_1f (0.25 * 1000) ++ " ms") 15 ++ " "
             ++ ljust "5.6.7.8" 15], None)).
Proof.
  apply (display_shows_port_success (fun _ => "") us1
           (mk_node "USA" "Los Angeles" "NA") (PInt 1) 0.25%float
           "5.6.7.8"); reflexivity.
Defined.


(** * Properties of saving *)





(** The result of a failed check, [{'error': message}], cannot be saved as
    text: after the line "Location: error" the message is taken for a
    record, [data.items()] raises [AttributeError], and the message itself
    never reaches the file. Saved as JSON, the same result is written
    whole by [json.dump]. *)
Theorem failed_check_saves_no_message
    (builtin_str : pyval -> string) (json_dump : pydict -> string)
    (msg format : string) :
  format <> "json" ->
  save_results builtin_str json_dump true [("error", PStr msg)] format =
    (["Location: error" ++ newline], Some (WriteError AttributeError)) /\
  save_results builtin_str json_dump true [("error", PStr msg)] "json" =
    ([json_dump [("error", PStr msg)]], None).
Proof.
  intros Hf. split; [|reflexivity].
  unfold save_results. apply String.eqb_neq in Hf. rewrite Hf. reflexivity.
Qed.

Lemma failed_check_saves_no_message_witness :
  save_results (fun _ => "") (fun _ => "") true
    [("error", PStr "No check ID received after retries")] "text" =
    (["Location: error" ++ newline], Some (WriteError AttributeError)) /\
  save_results (fun _ => "") (fun _ => "") true
    [("error", PStr "No check ID received after retries")] "json" =
    ([(fun _ : pydict => "") [("error",
                               PStr "No check ID received after retries")]],
     None).
Proof.
  apply (failed_check_saves_no_message (fun _ => "") (fun _ => "")
           "No check ID received after retries" "text").
  discriminate.
Defined.
